(** * Feature engineering step of the churn-prediction pipeline

    A shallow embedding of [src/feature_engineering.py]: the parameter
    loader, the dataset loader, the TF-IDF vectorizer stage, the dataset
    writer and the pipeline driver, followed by the properties of the
    specification that the code settles.

    Conventions.
    - Python exceptions are values of [exn]; a computation that may raise
      returns a [result].
    - The file system, the log and the standard output are the state of the
      [World]; code that touches them lives in the monad [M].  The logger
      the module configures when it is imported sends every record to the
      console and to the log file alike: the [log] of the world is that
      sequence of records.
    - Each function of the source is a [try] block and its handlers:
      [f_try] is the block, [f] the block under [try_except].
    - What the program calls in pandas, scikit-learn, PyYAML and [os] is not
      code of the repository.  Its behaviour is written out where the
      properties depend on it (frames, the reading and writing of frames,
      the vocabulary of the vectorizer, directories), for the options the
      program uses; PyYAML, the lexical layer of delimited files and
      floating-point arithmetic are interfaces, [Libs] and [FloatOps], and
      every property is proved for all their implementations. *)

From Stdlib Require Import ZArith Ascii.
From stdpp Require Import gmap strings list pretty.

(** ** Exceptions and results *)

(** The exception classes the program can meet.  All of them derive from
    Python's [Exception]. *)
Inductive exn : Type :=
| FileNotFoundError (path : string)
| IsADirectoryError (path : string)
| FileExistsError (path : string)
| NotADirectoryError (path : string)
| OSError (msg : string)
| UnicodeDecodeError (msg : string)
| YAMLError (msg : string)
| ParserError (msg : string)
| EmptyDataError (msg : string)
| KeyError (key : string)
| TypeError (msg : string)
| ValueError (msg : string)
| AttributeError (msg : string)
| NotFittedError (msg : string).

(** [except FileNotFoundError], [except yaml.YAMLError] and
    [except pd.errors.ParserError]: the classes the handlers test for. *)
Definition is_FileNotFoundError (e : exn) : bool :=
  match e with FileNotFoundError _ => true | _ => false end.

Definition is_YAMLError (e : exn) : bool :=
  match e with YAMLError _ => true | _ => false end.

Definition is_ParserError (e : exn) : bool :=
  match e with ParserError _ => true | _ => false end.

(** [str(e)] *)
Definition exn_str (e : exn) : string :=
  match e with
  | FileNotFoundError p => "[Errno 2] No such file or directory: '" +:+ p +:+ "'"
  | IsADirectoryError p => "[Errno 21] Is a directory: '" +:+ p +:+ "'"
  | FileExistsError p => "[Errno 17] File exists: '" +:+ p +:+ "'"
  | NotADirectoryError p => "[Errno 20] Not a directory: '" +:+ p +:+ "'"
  | KeyError k => "'" +:+ k +:+ "'"
  | OSError m | UnicodeDecodeError m | YAMLError m | ParserError m
  | EmptyDataError m | TypeError m | ValueError m | AttributeError m
  | NotFittedError m => m
  end.

Inductive result (A : Type) : Type :=
| Ok (a : A)
| Raise (e : exn).
Arguments Ok {A} a.
Arguments Raise {A} e.

Definition bindR {A B} (r : result A) (k : A -> result B) : result B :=
  match r with
  | Ok a => k a
  | Raise e => Raise e
  end.

Declare Scope py_scope.
Delimit Scope py_scope with py.
Notation "x <~ r ;; k" := (bindR r (fun x => k))
  (at level 100, r at next level, right associativity) : py_scope.

(** ** Python values read from the parameter file *)

#[local] Set Warnings "-register-all".

Inductive pyval : Type :=
| PNone
| PBool (b : bool)
| PInt (z : Z)
| PFloat (lexeme : string)
| PStr (s : string)
| PList (items : list pyval)
| PDict (items : list (string * pyval)).

Fixpoint assoc {A} (k : string) (l : list (string * A)) : option A :=
  match l with
  | [] => None
  | (k', v) :: l' => if String.eqb k k' then Some v else assoc k l'
  end.

(** [obj[key]] for a string key *)
Definition py_getitem (obj : pyval) (key : string) : result pyval :=
  match obj with
  | PDict items =>
      match assoc key items with
      | Some v => Ok v
      | None => Raise (KeyError key)
      end
  | PNone => Raise (TypeError "'NoneType' object is not subscriptable")
  | PBool _ => Raise (TypeError "'bool' object is not subscriptable")
  | PInt _ => Raise (TypeError "'int' object is not subscriptable")
  | PFloat _ => Raise (TypeError "'float' object is not subscriptable")
  | PStr _ => Raise (TypeError "string indices must be integers, not 'str'")
  | PList _ => Raise (TypeError "list indices must be integers or slices, not str")
  end.

(** ** The world: file system, log, standard output *)

Inductive node : Type :=
| Dir
| File (content : string).

Inductive Level : Type := DEBUG | ERROR.

Inductive LogArg : Type :=
| AStr (s : string)
| AExn (e : exn)
| AShape (rows cols : nat).

(** One call of [logger.debug] or [logger.error]: the format string and its
    arguments, as the logging API receives them. *)
Record LogRecord : Type := mkLog {
  level : Level;
  fmt : string;
  args : list LogArg
}.

(** Paths are resolved to their components, relative to the working
    directory; the working directory itself is the empty path. *)
Record World : Type := mkWorld {
  fs : gmap (list string) node;
  log : list LogRecord;
  stdout : list string
}.

Definition M (A : Type) : Type := World -> result A * World.

Definition ret {A} (a : A) : M A := fun w => (Ok a, w).

Definition raise {A} (e : exn) : M A := fun w => (Raise e, w).

Definition bind {A B} (m : M A) (k : A -> M B) : M B :=
  fun w =>
    match m w with
    | (Ok a, w') => k a w'
    | (Raise e, w') => (Raise e, w')
    end.

Definition lift {A} (r : result A) : M A := fun w => (r, w).

(** [try: body  except Exception as e: handler e] *)
Definition try_except {A} (body : M A) (handler : exn -> M A) : M A :=
  fun w =>
    match body w with
    | (Ok a, w') => (Ok a, w')
    | (Raise e, w') => handler e w'
    end.

Notation "x <- m ;; k" := (bind m (fun x => k))
  (at level 100, m at next level, right associativity) : py_scope.
Notation "m ;;; k" := (bind m (fun _ => k))
  (at level 100, right associativity) : py_scope.

Open Scope py_scope.

Definition add_log (w : World) (r : LogRecord) : World :=
  mkWorld (fs w) (log w ++ [r]) (stdout w).

Definition add_stdout (w : World) (s : string) : World :=
  mkWorld (fs w) (log w) (stdout w ++ [s]).

Definition emit (l : Level) (f : string) (a : list LogArg) : M unit :=
  fun w => (Ok tt, add_log w (mkLog l f a)).

Definition logger_debug := emit DEBUG.
Definition logger_error := emit ERROR.

Definition print (s : string) : M unit :=
  fun w => (Ok tt, add_stdout w s).

(** ** Paths *)

Definition slash : ascii := "/"%char.

(** The pieces of [s] between the occurrences of [sep]. *)
Fixpoint split_on (sep : ascii) (s : string) : list string :=
  match s with
  | EmptyString => [EmptyString]
  | String c s' =>
      if Ascii.eqb c sep then EmptyString :: split_on sep s'
      else match split_on sep s' with
           | [] => [String c EmptyString]
           | p :: ps => String c p :: ps
           end
  end.

(** Components of a path after resolution: empty pieces and [.] vanish,
    [..] drops the component before it. *)
Fixpoint resolve_go (acc : list string) (pieces : list string) : list string :=
  match pieces with
  | [] => acc
  | p :: ps =>
      if String.eqb p "" then resolve_go acc ps
      else if String.eqb p "." then resolve_go acc ps
      else if String.eqb p ".." then resolve_go (removelast acc) ps
      else resolve_go (acc ++ [p]) ps
  end.

Definition is_absolute (p : string) : bool :=
  match p with
  | String c _ => Ascii.eqb c slash
  | EmptyString => false
  end.

Definition components (p : string) : list string :=
  (if is_absolute p then ["/"] else []) ++ resolve_go [] (split_on slash p).

Fixpoint rstrip_slash_rev (r : list ascii) : list ascii :=
  match r with
  | c :: r' => if Ascii.eqb c slash then rstrip_slash_rev r' else r
  | [] => []
  end.

Fixpoint drop_to_slash_rev (r : list ascii) : list ascii :=
  match r with
  | c :: r' => if Ascii.eqb c slash then r else drop_to_slash_rev r'
  | [] => []
  end.

(** [os.path.dirname]: everything up to the last slash, without the
    trailing slashes unless the head consists of slashes only. *)
Definition dirname (p : string) : string :=
  let head := drop_to_slash_rev (rev (String.list_ascii_of_string p)) in
  match rstrip_slash_rev head with
  | [] => String.string_of_list_ascii (rev head)
  | stripped => String.string_of_list_ascii (rev stripped)
  end.

Definition ends_with_slash (p : string) : bool :=
  match rev (String.list_ascii_of_string p) with
  | c :: _ => Ascii.eqb c slash
  | [] => false
  end.

(** [os.path.join a b] *)
Definition path_join (a b : string) : string :=
  if is_absolute b then b
  else if String.eqb a "" then b
  else if ends_with_slash a then a +:+ b
  else a +:+ "/" +:+ b.

(** ** File system operations *)

(** The working directory and the root always exist. *)
Definition is_root (p : list string) : bool :=
  bool_decide (p = []) || bool_decide (p = ["/"]).

Definition lookup_node (m : gmap (list string) node) (p : list string) : option node :=
  if is_root p then Some Dir else m !! p.

(** [open(path, 'r')] followed by reading the whole file; the empty path
    names nothing. *)
Definition read_file (path : string) : M string :=
  fun w =>
    if String.eqb path "" then (Raise (FileNotFoundError path), w)
    else match lookup_node (fs w) (components path) with
         | Some (File c) => (Ok c, w)
         | Some Dir => (Raise (IsADirectoryError path), w)
         | None => (Raise (FileNotFoundError path), w)
         end.

(** Creating the directories [pre ++ [c1]], [pre ++ [c1; c2]], ... in turn;
    an existing directory is kept ([exist_ok=True]). *)
Fixpoint makedirs_from (name : string) (pre rest : list string)
    (m : gmap (list string) node) : result (gmap (list string) node) :=
  match rest with
  | [] => Ok m
  | c :: rest' =>
      let p := pre ++ [c] in
      match lookup_node m p with
      | Some Dir => makedirs_from name p rest' m
      | Some (File _) =>
          match rest' with
          | [] => Raise (FileExistsError name)
          | _ => Raise (NotADirectoryError name)
          end
      | None => makedirs_from name p rest' (<[p := Dir]> m)
      end
  end.

(** [os.makedirs(name, exist_ok=True)]; the empty name is refused by the
    operating system. *)
Definition makedirs (name : string) : M unit :=
  fun w =>
    if String.eqb name "" then (Raise (FileNotFoundError name), w)
    else match makedirs_from name [] (components name) (fs w) with
         | Ok m => (Ok tt, mkWorld m (log w) (stdout w))
         | Raise e => (Raise e, w)
         end.

(** Opening [path] for writing and storing [content]: the parent directory
    has to exist, and [path] must not be a directory. *)
Definition write_file (path : string) (content : string) : M unit :=
  fun w =>
    let p := components path in
    if String.eqb path "" then (Raise (FileNotFoundError path), w)
    else match lookup_node (fs w) (removelast p) with
         | Some Dir =>
             match lookup_node (fs w) p with
             | Some Dir => (Raise (IsADirectoryError path), w)
             | _ => (Ok tt, mkWorld (<[p := File content]> (fs w)) (log w) (stdout w))
             end
         | _ => (Raise (OSError ("Cannot save file into a non-existent directory: '"
                                   +:+ dirname path +:+ "'")), w)
         end.

(** ** Library interfaces *)

(** Double-precision arithmetic, as far as the vectorizer uses it, together
    with the reading and printing of floating-point literals. *)
Class FloatOps (F : Type) : Type := {
  f_of_nat : nat -> F;
  f_add : F -> F -> F;
  f_mul : F -> F -> F;
  f_div : F -> F -> F;
  f_sqrt : F -> F;
  f_ln : F -> F;
  f_is_zero : F -> bool;
  parse_float : string -> option F;
  repr_float : F -> string
}.

(** PyYAML's [safe_load], and the lexical layer of delimited files: [csv_lex]
    cuts a text into lines of fields (the empty list is a blank line),
    [csv_write] renders lines of fields, with the quoting the dialect
    needs. *)
Class Libs : Type := {
  yaml_safe_load : string -> result pyval;
  csv_lex : string -> result (list (list string));
  csv_write : list (list string) -> string
}.

(** ** Tabular data *)

Inductive cell (F : Type) : Type :=
| CNaN
| CStr (s : string)
| CInt (z : Z)
| CFloat (f : F)
| CBool (b : bool).
Arguments CNaN {F}.
Arguments CStr {F} s.
Arguments CInt {F} z.
Arguments CFloat {F} f.
Arguments CBool {F} b.

(** A frame: the length of its index and its columns in order, each with
    its label. *)
Record DataFrame (F : Type) : Type := mkFrame {
  index_len : nat;
  columns : list (string * list (cell F))
}.
Arguments mkFrame {F} index_len columns.
Arguments index_len {F} d.
Arguments columns {F} d.

(** What [df[col].values] yields: the cells of the column, or a
    two-dimensional block when the label occurs more than once. *)
Inductive values (F : Type) : Type :=
| V1 (cells : list (cell F))
| V2 (rows : nat).
Arguments V1 {F} cells.
Arguments V2 {F} rows.

(** The markers [read_csv] takes for a missing value by default. *)
Definition na_values : list string :=
  [""; "#N/A"; "#N/A N/A"; "#NA"; "-1.#IND"; "-1.#QNAN"; "-NaN"; "-nan";
   "1.#IND"; "1.#QNAN"; "<NA>"; "N/A"; "NA"; "NULL"; "NaN"; "None"; "n/a";
   "nan"; "null"].

Definition is_na (s : string) : bool := existsb (String.eqb s) na_values.

Definition digit_of (c : ascii) : option Z :=
  let n := Z.of_N (N_of_ascii c) in
  if (48 <=? n)%Z && (n <=? 57)%Z then Some (n - 48)%Z else None.

Fixpoint parse_digits (acc : Z) (s : string) : option Z :=
  match s with
  | EmptyString => Some acc
  | String c s' =>
      match digit_of c with
      | Some d => parse_digits (10 * acc + d)%Z s'
      | None => None
      end
  end.

Definition in_int64 (z : Z) : bool :=
  (- 2 ^ 63 <=? z)%Z && (z <? 2 ^ 63)%Z.

(** An integer literal that fits the 64-bit integer dtype. *)
Definition parse_int (s : string) : option Z :=
  let signed :=
    match s with
    | String "-" (String _ _ as ds) => Z.opp <$> parse_digits 0 ds
    | String "+" (String _ _ as ds) => parse_digits 0 ds
    | String _ _ => parse_digits 0 s
    | EmptyString => None
    end in
  match signed with
  | Some z => if in_int64 z then Some z else None
  | None => None
  end.

Definition parse_bool (s : string) : option bool :=
  if existsb (String.eqb s) ["True"; "TRUE"; "true"] then Some true
  else if existsb (String.eqb s) ["False"; "FALSE"; "false"] then Some false
  else None.

Fixpoint set_assoc {A} (k : string) (v : A) (l : list (string * A)) : list (string * A) :=
  match l with
  | [] => [(k, v)]
  | (k', v') :: l' =>
      if String.eqb k k' then (k, v) :: l' else (k', v') :: set_assoc k v l'
  end.

(** The renaming loop of the header reader: a label met before gets the
    suffix [.count], again while the new label is taken too. *)
Fixpoint dedup_name (fuel : nat) (counts : list (string * nat)) (col : string)
    : string * list (string * nat) :=
  match fuel with
  | 0 => (col, counts)
  | S fuel' =>
      match assoc col counts with
      | Some (S n) =>
          dedup_name fuel' (set_assoc col (S (S n)) counts)
                     (col +:+ "." +:+ pretty (S n))
      | _ => (col, counts)
      end
  end.

Fixpoint dedup_names (counts : list (string * nat)) (names : list string) : list string :=
  match names with
  | [] => []
  | col :: rest =>
      let '(col', counts') := dedup_name (S (length counts)) counts col in
      col' :: dedup_names (set_assoc col' 1 counts') rest
  end.

(** Header cells become column labels: an empty cell is named after its
    position, labels that repeat are renamed. *)
Definition header_names (header : list string) : list string :=
  dedup_names []
    (imap (fun j name => if String.eqb name "" then "Unnamed: " +:+ pretty j else name)
          header).

Section Frames.
Context {F : Type} {fl : FloatOps F} {lib : Libs}.

Definition cell_text (c : cell F) : string :=
  match c with
  | CNaN => ""
  | CStr s => s
  | CInt z => pretty z
  | CFloat f => repr_float f
  | CBool true => "True"
  | CBool false => "False"
  end.

(** The field of [row] for column [j]; [None] when the row is too short or
    the field is a missing-value marker. *)
Definition field_at (row : list string) (j : nat) : option string :=
  match row !! j with
  | Some s => if is_na s then None else Some s
  | None => None
  end.

Definition all_some {A B} (f : A -> option B) (l : list (option A)) : bool :=
  forallb (fun o => match o with Some a => bool_decide (is_Some (f a)) | None => true end) l.

Definition no_missing {A} (l : list (option A)) : bool :=
  forallb (fun o => bool_decide (is_Some o)) l.

(** Type inference for one column: integers when every field is an integer
    literal, floating point when every present field is numeric, Booleans
    when every present field is a Boolean literal, text otherwise. *)
Definition convert_column (fields : list (option string)) : list (cell F) :=
  if no_missing fields && all_some parse_int fields then
    fmap (fun o => match o ≫= parse_int with Some z => CInt z | None => CNaN end) fields
  else if all_some parse_float fields then
    fmap (fun o => match o ≫= parse_float with Some f => CFloat f | None => CNaN end) fields
  else if all_some parse_bool fields then
    fmap (fun o => match o ≫= parse_bool with Some b => CBool b | None => CNaN end) fields
  else
    fmap (fun o => match o with Some s => CStr s | None => CNaN end) fields.

(** The frame of a header line and data lines: one column per header cell,
    one row per data line; a row that is too short is filled with missing
    values. *)
Definition frame_of_lines (header : list string) (data : list (list string))
    : DataFrame F :=
  mkFrame (length data)
    (imap (fun j name => (name, convert_column (fmap (fun r => field_at r j) data)))
          (header_names header)).

(** [pd.read_csv] on the text of a file, with the default options: blank
    lines are skipped, the first line left is the header, a row longer than
    the header is a tokenizing error. *)
Definition read_csv (text : string) : result (DataFrame F) :=
  lines <~ csv_lex text ;;
  match filter (fun l => l <> []) lines with
  | [] => Raise (EmptyDataError "No columns to parse from file")
  | header :: data =>
      if existsb (fun r => length header <? length r) data
      then Raise (ParserError "Error tokenizing data. C error: too many fields in a line")
      else Ok (frame_of_lines header data)
  end.

Definition pd_read_csv (file_path : string) : M (DataFrame F) :=
  text <- read_file file_path ;;
  lift (read_csv text).

Definition fill_cell (value : string) (c : cell F) : cell F :=
  match c with
  | CNaN => CStr value
  | _ => c
  end.

(** [df.fillna(value, inplace=True)] with a string value *)
Definition fillna (df : DataFrame F) (value : string) : DataFrame F :=
  mkFrame (index_len df)
    (fmap (fun c : string * list (cell F) => (fst c, fmap (fill_cell value) (snd c)))
          (columns df)).

(** The lines [to_csv(index=False)] writes: the header, then one line per
    row with the cells of the columns and nothing else. *)
Definition frame_rows (df : DataFrame F) : list (list string) :=
  fmap (fun i => fmap (fun c : string * list (cell F) => cell_text (nth i (snd c) CNaN))
                      (columns df))
       (seq 0 (index_len df)).

Definition frame_lines (df : DataFrame F) : list (list string) :=
  fmap fst (columns df) :: frame_rows df.



Definition to_csv (df : DataFrame F) (file_path : string) : M unit :=
  write_file file_path (csv_write (frame_lines df)).

(** [df[col].values] *)
Definition df_getitem (df : DataFrame F) (col : string) : result (values F) :=
  match filter (fun c => fst c = col) (columns df) with
  | [] => Raise (KeyError col)
  | [c] => Ok (V1 (snd c))
  | _ => Ok (V2 (index_len df))
  end.

(** [df[key] = vals]: an existing column keeps its place and gets the new
    cells, a new one is appended. *)
Definition df_setitem (df : DataFrame F) (key : string) (vals : values F)
    : result (DataFrame F) :=
  match vals with
  | V2 _ => Raise (ValueError "Expected a 1D array, got an array with 2 dimensions")
  | V1 cells =>
      if length cells =? index_len df then
        Ok (mkFrame (index_len df)
              (if bool_decide (key ∈ fmap fst (columns df))
               then fmap (fun c => if bool_decide (fst c = key) then (key, cells) else c)
                        (columns df)
               else columns df ++ [(key, cells)]))
      else Raise (ValueError "Length of values does not match length of index")
  end.

(** [pd.DataFrame(matrix, columns=names)] for a matrix given by its rows *)
Definition frame_of_matrix (matrix : list (list F)) (names : list string) : DataFrame F :=
  mkFrame (length matrix)
    (imap (fun j name => (name, fmap (fun row => CFloat (nth j row (f_of_nat 0))) matrix))
          names).

(** ** Parameter loader, dataset loader, dataset writer *)

(** The [try] block of [load_params] *)
Definition load_params_try (params_path : string) : M pyval :=
  text <- read_file params_path ;;
  params <- lift (yaml_safe_load text) ;;
  logger_debug "Parameters retrived from %s" [AStr params_path] ;;;
  ret params.

Definition load_params (params_path : string) : M pyval :=
  try_except (load_params_try params_path)
    (fun e =>
       if is_FileNotFoundError e then
         logger_error "File not found : %s" [AStr params_path] ;;; raise e
       else if is_YAMLError e then
         logger_error "Yaml error :%s" [AExn e] ;;; raise e
       else
         logger_error "Unexpected error : %s" [AExn e] ;;; ret PNone).

(** The [try] block of [load_data] *)
Definition load_data_try (file_path : string) : M (DataFrame F) :=
  df <- pd_read_csv file_path ;;
  let df := fillna df "" in
  logger_debug "Data loaded and NaNs filled from %s" [AStr file_path] ;;;
  ret df.

Definition load_data (file_path : string) : M (DataFrame F) :=
  try_except (load_data_try file_path)
    (fun e =>
       if is_ParserError e then
         logger_error "Failed to parse the CSV file: %s" [AExn e] ;;; raise e
       else
         logger_error "Unexpected error occurred while loading the data: %s" [AExn e] ;;;
         raise e).

(** The [try] block of [save_data] *)
Definition save_data_try (df : DataFrame F) (file_path : string) : M unit :=
  makedirs (dirname file_path) ;;;
  to_csv df file_path ;;;
  logger_debug "Data saved to %s" [AStr file_path].

Definition save_data (df : DataFrame F) (file_path : string) : M unit :=
  try_except (save_data_try df file_path)
    (fun e =>
       logger_error "Unexpected error occurred while saving the data: %s" [AExn e] ;;;
       raise e).

(** A feature table: every column as long as the index, distinct and
    non-empty column labels, one of them [label]. *)
Definition feature_table (df : DataFrame F) : Prop :=
  Forall (fun c => length (snd c) = index_len df) (columns df)
  /\ NoDup (fmap fst (columns df))
  /\ ("" ∉ fmap fst (columns df))
  /\ ("label" ∈ fmap fst (columns df)).

End Frames.

(** ** The vectorizer of the feature-extraction library

    [TfidfVectorizer] with every option at its default but [max_features]:
    lower-casing, tokens of two or more word characters, one-word terms,
    terms in alphabetical order, the most frequent terms kept when there are
    more than [max_features], smoothed inverse document frequencies, rows of
    unit Euclidean norm.  Text is a sequence of [ascii] characters; the word
    characters and the capital letters are those of the ASCII range.  Among
    terms of equal frequency the library keeps those its sort puts first;
    here these are the first of the alphabet. *)

Definition char_between (lo hi : N) (c : ascii) : bool :=
  (lo <=? N_of_ascii c)%N && (N_of_ascii c <=? hi)%N.

Definition is_word_char (c : ascii) : bool :=
  char_between 48 57 c || char_between 65 90 c || char_between 97 122 c
  || Ascii.eqb c "_"%char.

Definition lower_char (c : ascii) : ascii :=
  if char_between 65 90 c then ascii_of_N (N_of_ascii c + 32) else c.

Fixpoint lowercase (s : string) : string :=
  match s with
  | EmptyString => EmptyString
  | String c s' => String (lower_char c) (lowercase s')
  end.

Definition emit_token (cur : string) : list string :=
  if 2 <=? String.length cur then [cur] else [].

(** The matches of the token pattern: the maximal runs of word characters
    that are at least two characters long. *)
Fixpoint tokenize_go (cur : string) (s : string) : list string :=
  match s with
  | EmptyString => emit_token cur
  | String c s' =>
      if is_word_char c then tokenize_go (cur +:+ String c EmptyString) s'
      else emit_token cur ++ tokenize_go EmptyString s'
  end.

Definition tokenize (s : string) : list string := tokenize_go EmptyString s.

Definition analyze (doc : string) : list string := tokenize (lowercase doc).

(** One pass over the tokens of a document: a term that is not in the
    vocabulary yet is added at the end, unless the vocabulary is fixed, in
    which case the term is skipped. *)
Fixpoint add_terms (fixed_vocab : bool) (vocabulary : list string) (tokens : list string)
    : list string :=
  match tokens with
  | [] => vocabulary
  | t :: ts =>
      if bool_decide (t ∈ vocabulary) then add_terms fixed_vocab vocabulary ts
      else if fixed_vocab then add_terms fixed_vocab vocabulary ts
      else add_terms fixed_vocab (vocabulary ++ [t]) ts
  end.

Fixpoint count_docs (fixed_vocab : bool) (vocabulary : list string)
    (docs : list (result (list string))) : result (list string * list (list string)) :=
  match docs with
  | [] => Ok (vocabulary, [])
  | d :: ds =>
      toks <~ d ;;
      r <~ count_docs fixed_vocab (add_terms fixed_vocab vocabulary toks) ds ;;
      Ok (fst r, toks :: snd r)
  end.

(** [_count_vocab]: the vocabulary after the pass, with the tokens of every
    document.  A vocabulary that is being built must not end up empty. *)
Definition count_vocab (fixed_vocab : bool) (vocabulary : list string)
    (docs : list (result (list string))) : result (list string * list (list string)) :=
  r <~ count_docs fixed_vocab vocabulary docs ;;
  if negb fixed_vocab && bool_decide (fst r = [])
  then Raise (ValueError "empty vocabulary; perhaps the documents only contain stop words")
  else Ok r.

Definition term_count (term : string) (tokens : list string) : nat :=
  length (filter (fun t => t = term) tokens).

(** The count matrix over a vocabulary, one row per document. *)
Definition count_matrix (vocabulary : list string) (docs : list (list string))
    : list (list nat) :=
  fmap (fun toks => fmap (fun term => term_count term toks) vocabulary) docs.

Fixpoint insert_sorted (t : string) (l : list string) : list string :=
  match l with
  | [] => [t]
  | x :: r => if String.leb t x then t :: l else x :: insert_sorted t r
  end.

(** [_sort_features]: the terms in alphabetical order *)
Definition sort_features (vocabulary : list string) : list string :=
  foldr insert_sorted [] vocabulary.

Fixpoint insert_desc (x : string * nat) (l : list (string * nat)) : list (string * nat) :=
  match l with
  | [] => [x]
  | y :: r => if snd x <? snd y then y :: insert_desc x r else x :: l
  end.

(** The terms by decreasing frequency in the corpus; terms of equal
    frequency keep their order. *)
Definition rank_terms (vocabulary : list string) (docs : list (list string))
    : list string :=
  fmap fst (foldr insert_desc []
             (fmap (fun t => (t, sum_list (fmap (term_count t) docs))) vocabulary)).

(** [_limit_features] for the default document-frequency bounds: with more
    terms than the limit, the most frequent ones stay, in their order. *)
Definition limit_features (limit : option nat) (vocabulary : list string)
    (docs : list (list string)) : list string :=
  match limit with
  | Some n =>
      if n <? length vocabulary then
        let kept := take n (rank_terms vocabulary docs) in
        filter (fun t => t ∈ kept) vocabulary
      else vocabulary
  | None => vocabulary
  end.

(** The check of [max_features]: a positive integer or [None]. *)
Definition as_limit (max_features : pyval) : result (option nat) :=
  match max_features with
  | PNone => Ok None
  | PInt z =>
      if (1 <=? z)%Z then Ok (Some (Z.to_nat z))
      else Raise (ValueError "max_features is neither a positive integer nor None")
  | PBool true => Ok (Some 1)
  | _ => Raise (ValueError "max_features is neither a positive integer nor None")
  end.

Section Vectorizer.
Context {F : Type} {fl : FloatOps F}.

Record TfidfVectorizer : Type := mkVectorizer {
  max_features : pyval;
  vocabulary_ : option (list string);
  idf_ : option (list F)
}.

(** [TfidfVectorizer(max_features=max_features)] *)
Definition new_vectorizer (mf : pyval) : TfidfVectorizer := mkVectorizer mf None None.

(** The analysis of one document; only text can be analysed. *)
Definition analyze_cell (c : cell F) : result (list string) :=
  match c with
  | CStr s => Ok (analyze s)
  | CNaN => Raise (ValueError "np.nan is an invalid document, expected byte or unicode string.")
  | CInt _ => Raise (AttributeError "'int' object has no attribute 'lower'")
  | CFloat _ => Raise (AttributeError "'float' object has no attribute 'lower'")
  | CBool _ => Raise (AttributeError "'bool' object has no attribute 'lower'")
  end.

(** The documents of an array: its cells, or the rows of a two-dimensional
    block, which are no text. *)
Definition docs_of (raw : values F) : list (result (list string)) :=
  match raw with
  | V1 cells => fmap analyze_cell cells
  | V2 rows =>
      replicate rows (Raise (AttributeError "'numpy.ndarray' object has no attribute 'lower'"))
  end.

(** Smoothed inverse document frequency of each term. *)
Definition idf_vector (vocabulary : list string) (docs : list (list string)) : list F :=
  fmap (fun term =>
         let df := length (filter (fun toks => 0 < term_count term toks) docs) in
         f_add (f_ln (f_div (f_of_nat (1 + length docs)) (f_of_nat (1 + df))))
               (f_of_nat 1))
      vocabulary.

(** One row of the result: counts weighted by the frequencies, scaled to
    unit norm unless the norm is zero. *)
Definition tfidf_row (idf : list F) (counts : list nat) : list F :=
  let w := zip_with (fun c i => f_mul (f_of_nat c) i) counts idf in
  let norm := f_sqrt (foldr (fun x acc => f_add (f_mul x x) acc) (f_of_nat 0) w) in
  if f_is_zero norm then w else fmap (fun x => f_div x norm) w.

Definition fit_transform (v : TfidfVectorizer) (raw : values F)
    : result (TfidfVectorizer * list (list F)) :=
  limit <~ as_limit (max_features v) ;;
  cv <~ count_vocab false [] (docs_of raw) ;;
  let vocabulary := limit_features limit (sort_features (fst cv)) (snd cv) in
  let idf := idf_vector vocabulary (snd cv) in
  Ok (mkVectorizer (max_features v) (Some vocabulary) (Some idf),
      fmap (tfidf_row idf) (count_matrix vocabulary (snd cv))).

(** [transform] counts over the vocabulary the vectorizer holds; the pass
    receives that very dictionary, so what the pass leaves is what the
    vectorizer holds afterwards. *)
Definition transform (v : TfidfVectorizer) (raw : values F)
    : result (TfidfVectorizer * list (list F)) :=
  match vocabulary_ v, idf_ v with
  | Some vocabulary, Some idf =>
      cv <~ count_vocab true vocabulary (docs_of raw) ;;
      Ok (mkVectorizer (max_features v) (Some (fst cv)) (Some idf),
          fmap (tfidf_row idf) (count_matrix (fst cv) (snd cv)))
  | _, _ => Raise (NotFittedError "The TF-IDF vectorizer is not fitted")
  end.

Definition get_feature_names_out (v : TfidfVectorizer) : result (list string) :=
  match vocabulary_ v with
  | Some vocabulary => Ok vocabulary
  | None => Raise (NotFittedError "Vocabulary not fitted or provided")
  end.

Definition shape (df : DataFrame F) : LogArg :=
  AShape (index_len df) (length (columns df)).

(** The statements of the [try] block of [apply_tfidf] before its log call;
    they touch neither the file system nor the log. *)
Definition apply_tfidf_steps (train_data test_data : DataFrame F) (mf : pyval)
    (text_col target_col : string) : result (DataFrame F * DataFrame F) :=
  let vectorizer := new_vectorizer mf in
  X_train <~ df_getitem train_data text_col ;;
  y_train <~ df_getitem train_data target_col ;;
  X_test <~ df_getitem test_data text_col ;;
  y_test <~ df_getitem test_data target_col ;;
  fitted <~ fit_transform vectorizer X_train ;;
  applied <~ transform (fst fitted) X_test ;;
  feature_names <~ get_feature_names_out (fst applied) ;;
  train_df <~ df_setitem (frame_of_matrix (snd fitted) feature_names) "label" y_train ;;
  test_df <~ df_setitem (frame_of_matrix (snd applied) feature_names) "label" y_test ;;
  Ok (train_df, test_df).

(** The [try] block of [apply_tfidf] *)
Definition apply_tfidf_try (train_data test_data : DataFrame F) (mf : pyval)
    (text_col target_col : string) : M (DataFrame F * DataFrame F) :=
  dfs <- lift (apply_tfidf_steps train_data test_data mf text_col target_col) ;;
  logger_debug "TF-IDF applied. Train shape: %s, Test shape: %s"
               [shape (fst dfs); shape (snd dfs)] ;;;
  ret dfs.

Definition apply_tfidf (train_data test_data : DataFrame F) (mf : pyval)
    (text_col target_col : string) : M (DataFrame F * DataFrame F) :=
  try_except (apply_tfidf_try train_data test_data mf text_col target_col)
    (fun e =>
       logger_error "Error during TF-IDF transformation: %s" [AExn e] ;;; raise e).

(** ** The pipeline driver *)

(** The [try] block of [main] *)
Definition main_try {lib : Libs} : M unit :=
  params <- load_params "params.yaml" ;;
  section <- lift (py_getitem params "feature_engineering") ;;
  mf <- lift (py_getitem section "max_features") ;;
  train_data <- load_data "./data/interim/train_processed.csv" ;;
  test_data <- load_data "./data/interim/test_processed.csv" ;;
  dfs <- apply_tfidf train_data test_data mf "text" "target" ;;
  save_data (fst dfs) (path_join "./data/processed" "train_tfidf.csv") ;;;
  save_data (snd dfs) (path_join "./data/processed" "test_tfidf.csv") ;;;
  logger_debug "Feature engineering process completed successfully." [].

Definition main {lib : Libs} : M unit :=
  try_except main_try
    (fun e =>
       logger_error "Failed to complete the feature engineering process: %s" [AExn e] ;;;
       print ("Error: " +:+ exn_str e)).

End Vectorizer.

(** ** Module level: the logger, and the file run as a script *)

Definition log_dir : string := "logs".

Definition log_file_path : string := path_join log_dir "feature_engineering.log".

(** [logging.FileHandler(path)] opens its file for appending when the
    handler is made: a missing file is created empty, an existing one is
    kept. *)
Definition open_append (path : string) : M unit :=
  fun w =>
    let p := components path in
    if String.eqb path "" then (Raise (FileNotFoundError path), w)
    else match lookup_node (fs w) (removelast p) with
         | Some Dir =>
             match lookup_node (fs w) p with
             | Some Dir => (Raise (IsADirectoryError path), w)
             | Some (File _) => (Ok tt, w)
             | None => (Ok tt, mkWorld (<[p := File ""]> (fs w)) (log w) (stdout w))
             end
         | Some (File _) => (Raise (NotADirectoryError path), w)
         | None => (Raise (FileNotFoundError path), w)
         end.

(** The statements of the module that have an effect: the directory of the
    log is created, and the file handler opens the log file.  Nothing
    catches their exceptions. *)
Definition module_init : M unit :=
  makedirs log_dir ;;;
  open_append log_file_path.

Section Script.
Context {F : Type} {fl : FloatOps F} {lib : Libs}.

(** Running the file: the module level, then [main()] under the
    [__main__] guard. *)
Definition script : M unit :=
  module_init ;;; main (F:=F).

End Script.

(** ** Sample implementations of the library interfaces

    Small stand-ins on which the definitions above can be run: numbers are
    integers, a line of fields is written with commas and nothing is
    quoted, and the parameter loader knows the documents used below. *)
Module Sample.

Definition zfloat : FloatOps Z := {|
  f_of_nat := Z.of_nat;
  f_add := Z.add;
  f_mul := Z.mul;
  f_div := Z.div;
  f_sqrt := Z.sqrt;
  f_ln := Z.log2;
  f_is_zero := Z.eqb 0;
  parse_float := parse_int;
  repr_float := pretty
|}.

Definition join_with (sep : string) (l : list string) : string :=
  match l with
  | [] => ""
  | x :: r => foldl (fun acc y => acc +:+ sep +:+ y) x r
  end.

Definition newline : string := String (ascii_of_N 10) EmptyString.

Definition plain_write (lines : list (list string)) : string :=
  String.concat "" (fmap (fun l => join_with "," l +:+ newline) lines).

Definition plain_lex (text : string) : result (list (list string)) :=
  Ok (fmap (fun l => if String.eqb l "" then [] else split_on ","%char l)
          (removelast (split_on (ascii_of_N 10) text))).

Definition params_text : string := "feature_engineering: {max_features: 3}".

Definition toy_yaml (text : string) : result pyval :=
  if String.eqb text params_text
  then Ok (PDict [("feature_engineering", PDict [("max_features", PInt 3)])])
  else if String.eqb text "" then Ok PNone
  else Raise (YAMLError "while parsing a flow mapping").

Definition libs : Libs := {|
  yaml_safe_load := toy_yaml;
  csv_lex := plain_lex;
  csv_write := plain_write
|}.

Definition train : DataFrame Z :=
  mkFrame 2 [("text", [CStr "Cat sat"; CStr "dog ran fast"]);
             ("target", [CInt 0; CInt 1])].

Definition test : DataFrame Z :=
  mkFrame 1 [("text", [CStr "cat ran"]); ("target", [CInt 1])].

(** A training set whose text is empty in every row. *)
Definition train_empty : DataFrame Z :=
  mkFrame 2 [("text", [CStr ""; CStr ""]); ("target", [CInt 0; CInt 1])].

(** A training set in which the word [label] occurs. *)
Definition train_label : DataFrame Z :=
  mkFrame 2 [("text", [CStr "Label me"; CStr "no label here"]);
             ("target", [CInt 1; CInt 0])].

Definition world0 : World := mkWorld ∅ [] [].

(** The tables of the stage for [train] and [test] with at most three
    terms; every term occurs once, the first three of the alphabet stay. *)
Definition train_table : DataFrame Z :=
  mkFrame 2 [("cat", [CFloat 1; CFloat 0]); ("dog", [CFloat 0; CFloat 1]);
             ("fast", [CFloat 0; CFloat 1]); ("label", [CInt 0; CInt 1])]%Z.

Definition test_table : DataFrame Z :=
  mkFrame 1 [("cat", [CFloat 1]); ("dog", [CFloat 0]); ("fast", [CFloat 0]);
             ("label", [CInt 1])]%Z.

(** The tables of the stage for [train_label] and [test]. *)
Definition train_label_table : DataFrame Z :=
  mkFrame 2 [("here", [CFloat 0; CFloat 1]); ("label", [CInt 1; CInt 0]);
             ("me", [CFloat 1; CFloat 0])]%Z.

Definition test_label_table : DataFrame Z :=
  mkFrame 1 [("here", [CFloat 0]); ("label", [CInt 1]); ("me", [CFloat 0])]%Z.







(** A working directory with the parameter file and the two interim
    datasets in place. *)
Definition train_csv : string :=
  "text,target" +:+ newline +:+ "Cat sat,0" +:+ newline +:+ "dog ran fast,1"
  +:+ newline.

Definition test_csv : string :=
  "text,target" +:+ newline +:+ "cat ran,1" +:+ newline.

Definition world_run : World :=
  mkWorld
    (<[ ["params.yaml"] := File params_text ]>
       (<[ ["data"] := Dir ]>
          (<[ ["data"; "interim"] := Dir ]>
             (<[ ["data"; "interim"; "train_processed.csv"] := File train_csv ]>
                (<[ ["data"; "interim"; "test_processed.csv"] := File test_csv ]> ∅)))))
    [] [].

(** A working directory in which [params.yaml] is a directory. *)
Definition world_params_dir : World := mkWorld {[ ["params.yaml"] := Dir ]} [] [].


(** A working directory in which [logs] is a regular file. *)
Definition world_logs_file : World := mkWorld {[ ["logs"] := File "notes" ]} [] [].



(** A training set with a number in its text column. *)
Definition train_numbers : DataFrame Z :=
  mkFrame 2 [("text", [CStr "cat sat"; CInt 7]); ("target", [CInt 0; CInt 1])].

End Sample.


(** * Properties *)

(** Unfolding the monad: one run of a computation is a chain of matches. *)
Ltac run :=
  cbv [try_except bind lift ret raise emit logger_debug logger_error print]; cbn.

Section ErrorPaths.
Context {F : Type} {fl : FloatOps F} {lib : Libs}.

Lemma read_file_missing path w :
  lookup_node (fs w) (components path) = None ->
  read_file path w = (Raise (FileNotFoundError path), w).
Proof. intros H. unfold read_file. rewrite H. by destruct (String.eqb path ""). Qed.



(** What the three handlers of [load_params] do with an exception of the
    [try] block, by its class. *)
Lemma load_params_handler path w e w' :
  load_params_try path w = (Raise e, w') ->
  load_params path w =
    if is_FileNotFoundError e then
      (Raise e, add_log w' (mkLog ERROR "File not found : %s" [AStr path]))
    else if is_YAMLError e then
      (Raise e, add_log w' (mkLog ERROR "Yaml error :%s" [AExn e]))
    else (Ok PNone, add_log w' (mkLog ERROR "Unexpected error : %s" [AExn e])).
Proof.
  intros H. unfold load_params, try_except. rewrite H.
  destruct (is_FileNotFoundError e); [done|].
  destruct (is_YAMLError e); done.
Qed.



(** C5, at the failing input.  With [params.yaml] a directory, opening it
    fails in the parameter loader, which logs the error and returns [None];
    the driver goes on to read the vocabulary size from [None], and what its
    handler logs and prints is the [TypeError] of that step, not the failure
    that occurred. *)
Theorem main_reports_unrelated_error :
  main (F:=F) Sample.world_params_dir =
    (Ok tt,
     mkWorld {[ ["params.yaml"] := Dir ]}
       [mkLog ERROR "Unexpected error : %s" [AExn (IsADirectoryError "params.yaml")];
        mkLog ERROR "Failed to complete the feature engineering process: %s"
              [AExn (TypeError "'NoneType' object is not subscriptable")]]
       ["Error: 'NoneType' object is not subscriptable"]).
Proof. reflexivity. Qed.

(** The driver never raises: its handler ends every failed run normally. *)
Lemma main_never_raises w : exists w', main (F:=F) w = (Ok tt, w').
Proof.
  unfold main, try_except. destruct (main_try w) as [[[]|e] w1]; run; eauto.
Qed.

(** Without a parameter file the run ends at its first step: the loader
    logs the not-found error, the handler of the driver logs and prints it,
    and the file system is as it was; no dataset has been read. *)
Lemma main_missing_parameter_file w :
  lookup_node (fs w) (components "params.yaml") = None ->
  main (F:=F) w =
    (Ok tt,
     add_stdout
       (add_log
          (add_log w (mkLog ERROR "File not found : %s" [AStr "params.yaml"]))
          (mkLog ERROR "Failed to complete the feature engineering process: %s"
                 [AExn (FileNotFoundError "params.yaml")]))
       "Error: [Errno 2] No such file or directory: 'params.yaml'").
Proof.
  intros H. unfold main, try_except, main_try, bind.
  rewrite (load_params_handler "params.yaml" w (FileNotFoundError "params.yaml") w).
  - reflexivity.
  - unfold load_params_try, bind. by rewrite (read_file_missing _ _ H).
Qed.

End ErrorPaths.

Section VectorizerProps.
Context {F : Type} {fl : FloatOps F}.

(** *** The vocabulary pass *)

Lemma add_terms_fixed vocabulary tokens :
  add_terms true vocabulary tokens = vocabulary.
Proof.
  induction tokens as [|t ts IH]; simpl; [done|].
  by case_bool_decide.
Qed.

Lemma count_docs_fixed vocabulary docs r :
  count_docs true vocabulary docs = Ok r -> fst r = vocabulary.
Proof.
  revert r. induction docs as [|d ds IH]; simpl; intros r H.
  - by inversion H.
  - destruct d as [toks|e]; simpl in H; [|done].
    rewrite add_terms_fixed in H.
    destruct (count_docs true vocabulary ds) as [r'|e] eqn:E; simpl in H; [|done].
    inversion H; subst; simpl. by apply IH.
Qed.

Lemma add_terms_NoDup fixed vocabulary tokens :
  NoDup vocabulary -> NoDup (add_terms fixed vocabulary tokens).
Proof.
  revert vocabulary. induction tokens as [|t ts IH]; simpl; intros v Hv; [done|].
  case_bool_decide; [by apply IH|].
  destruct fixed; [by apply IH|].
  apply IH, NoDup_app. split_and!; [done| |apply NoDup_singleton].
  intros x Hx Hx'. apply list_elem_of_singleton in Hx'. by subst.
Qed.

Lemma count_docs_NoDup fixed vocabulary docs r :
  NoDup vocabulary -> count_docs fixed vocabulary docs = Ok r -> NoDup (fst r).
Proof.
  revert vocabulary r. induction docs as [|d ds IH]; simpl; intros v r Hv H.
  - by inversion H.
  - destruct d as [toks|e]; simpl in H; [|done].
    destruct (count_docs fixed (add_terms fixed v toks) ds) as [r'|e] eqn:E;
      simpl in H; [|done].
    inversion H; subst; simpl.
    eapply IH; [|done]. by apply add_terms_NoDup.
Qed.

Lemma insert_sorted_perm t l : insert_sorted t l ≡ₚ t :: l.
Proof.
  induction l as [|x r IH]; simpl; [done|].
  destruct (String.leb t x); [done|].
  rewrite IH. apply Permutation_swap.
Qed.

Lemma sort_features_perm vocabulary : sort_features vocabulary ≡ₚ vocabulary.
Proof.
  unfold sort_features. induction vocabulary as [|t ts IH]; simpl; [done|].
  by rewrite insert_sorted_perm, IH.
Qed.

Lemma limit_features_NoDup limit vocabulary docs :
  NoDup vocabulary -> NoDup (limit_features limit vocabulary docs).
Proof.
  intros Hv. unfold limit_features. destruct limit as [n|]; [|done].
  destruct (n <? length vocabulary); [|done].
  by apply NoDup_filter.
Qed.

Lemma limit_features_length n vocabulary docs :
  NoDup vocabulary -> length (limit_features (Some n) vocabulary docs) <= n.
Proof.
  intros Hv. unfold limit_features.
  destruct (Nat.ltb_spec n (length vocabulary)) as [Hlt|Hge]; [|lia].
  etrans; [|apply (firstn_le_length n (rank_terms vocabulary docs))].
  apply submseteq_length, NoDup_submseteq; [by apply NoDup_filter|].
  intros x Hx. by apply list_elem_of_filter in Hx as [? _].
Qed.

Lemma limit_features_subset limit vocabulary docs t :
  t ∈ limit_features limit vocabulary docs -> t ∈ vocabulary.
Proof.
  unfold limit_features. destruct limit as [n|]; [|done].
  destruct (n <? length vocabulary); [|done].
  intros H. by apply list_elem_of_filter in H as [_ ?].
Qed.

(** *** The fitted vectorizer *)

Lemma fit_transform_ok v raw v' X :
  fit_transform v raw = Ok (v', X) ->
  exists limit vocabulary idf,
    as_limit (max_features v) = Ok limit
    /\ v' = mkVectorizer (max_features v) (Some vocabulary) (Some idf)
    /\ NoDup vocabulary
    /\ (forall n, limit = Some n -> length vocabulary <= n).
Proof.
  unfold fit_transform. intros H.
  destruct (as_limit (max_features v)) as [limit|e] eqn:El; simpl in H; [|done].
  unfold count_vocab in H.
  destruct (count_docs false [] (docs_of raw)) as [r|e] eqn:Ec; simpl in H; [|done].
  case_bool_decide; simpl in H; [done|].
  inversion H; subst; clear H.
  assert (NoDup (sort_features (fst r))) as Hs.
  { rewrite sort_features_perm. eapply count_docs_NoDup; [apply NoDup_nil_2|done]. }
  eexists limit, _, _. split_and!; [done|done| |].
  - by apply limit_features_NoDup.
  - intros n ->. by apply limit_features_length.
Qed.

Lemma transform_keeps_vectorizer (v v' : TfidfVectorizer (F:=F)) raw X :
  transform v raw = Ok (v', X) -> v' = v.
Proof.
  unfold transform. destruct v as [mf [vocabulary|] [idf|]]; simpl; try done.
  unfold count_vocab.
  destruct (count_docs true vocabulary (docs_of raw)) as [r|e] eqn:Ec; simpl; [|done].
  intros H. inversion H; subst. by rewrite (count_docs_fixed _ _ _ Ec).
Qed.

(** *** Frames *)

Lemma frame_of_matrix_names (X : list (list F)) names :
  fmap fst (columns (frame_of_matrix X names)) = names.
Proof.
  unfold frame_of_matrix; simpl. rewrite fmap_imap.
  rewrite (imap_ext _ (const id)); [|done].
  by rewrite imap_const, list_fmap_id.
Qed.

Lemma filter_label_none (cols : list (string * list (cell F))) key :
  key ∉ fmap fst cols -> filter (fun c => fst c = key) cols = [].
Proof.
  induction cols as [|[k col] cols IH]; simpl; intros H; [done|].
  apply not_elem_of_cons in H as [Hk H].
  rewrite filter_cons_False by (simpl; congruence). by apply IH.
Qed.

Lemma replace_label_none (cols : list (string * list (cell F))) key cells :
  key ∉ fmap fst cols ->
  (fun c => if bool_decide (fst c = key) then (key, cells) else c) <$> cols = cols.
Proof.
  induction cols as [|[k col] cols IH]; simpl; intros H; [done|].
  apply not_elem_of_cons in H as [Hk H].
  rewrite bool_decide_eq_false_2 by (simpl; congruence). f_equal. by apply IH.
Qed.

Lemma filter_label_replaced (cols : list (string * list (cell F))) key cells :
  NoDup (fmap fst cols) -> key ∈ fmap fst cols ->
  filter (fun c => fst c = key)
         ((fun c => if bool_decide (fst c = key) then (key, cells) else c) <$> cols)
  = [(key, cells)].
Proof.
  induction cols as [|[k col] cols IH]; simpl; intros Hnd Hin.
  - by apply elem_of_nil in Hin.
  - apply NoDup_cons in Hnd as [Hk Hnd].
    case_bool_decide as Hkey; simpl in Hkey.
    + subst k. rewrite filter_cons_True by done.
      rewrite (replace_label_none _ _ _ Hk). by rewrite (filter_label_none _ _ Hk).
    + rewrite filter_cons_False by done.
      apply elem_of_cons in Hin as [Hin|Hin]; [congruence|]. by apply IH.
Qed.

Lemma names_label_replaced (cols : list (string * list (cell F))) key cells :
  fmap fst ((fun c => if bool_decide (fst c = key) then (key, cells) else c) <$> cols)
  = fmap fst cols.
Proof.
  rewrite <- list_fmap_compose. apply list_fmap_ext. intros i [k col] _; simpl.
  case_bool_decide; simpl in *; congruence.
Qed.

(** Reading a column back after [df[key] = cells] on a frame whose labels
    are distinct. *)
Lemma df_setitem_getitem (df df' : DataFrame F) key cells :
  NoDup (fmap fst (columns df)) ->
  df_setitem df key (V1 cells) = Ok df' ->
  df_getitem df' key = Ok (V1 cells).
Proof.
  intros Hnd. unfold df_setitem, df_getitem.
  destruct (length cells =? index_len df); [|done].
  intros H; inversion H; subst; clear H; simpl.
  case_bool_decide as Hin.
  - by rewrite filter_label_replaced.
  - rewrite filter_app, (filter_label_none _ _ Hin); simpl.
    by rewrite filter_cons_True, filter_nil.
Qed.

Lemma df_setitem_V1 (df df' : DataFrame F) key vals :
  df_setitem df key vals = Ok df' -> exists cells, vals = V1 cells.
Proof. destruct vals; [eauto|done]. Qed.

Lemma df_setitem_columns (df df' : DataFrame F) key cells :
  df_setitem df key (V1 cells) = Ok df' ->
  index_len df' = index_len df
  /\ columns df' =
       if bool_decide (key ∈ fmap fst (columns df))
       then (fun c => if bool_decide (fst c = key) then (key, cells) else c) <$> columns df
       else columns df ++ [(key, cells)].
Proof.
  unfold df_setitem. destruct (length cells =? index_len df); [|done].
  intros H; by inversion H.
Qed.

(** *** The stage *)

Lemma apply_tfidf_run train test mf tc gc w :
  apply_tfidf (F:=F) train test mf tc gc w =
    match apply_tfidf_steps train test mf tc gc with
    | Ok dfs =>
        (Ok dfs,
         add_log w (mkLog DEBUG "TF-IDF applied. Train shape: %s, Test shape: %s"
                          [shape (fst dfs); shape (snd dfs)]))
    | Raise e =>
        (Raise e, add_log w (mkLog ERROR "Error during TF-IDF transformation: %s" [AExn e]))
    end.
Proof.
  unfold apply_tfidf, apply_tfidf_try. run.
  by destruct (apply_tfidf_steps train test mf tc gc).
Qed.

Lemma apply_tfidf_ok train test mf tc gc w dfs w' :
  apply_tfidf (F:=F) train test mf tc gc w = (Ok dfs, w') ->
  apply_tfidf_steps train test mf tc gc = Ok dfs.
Proof.
  rewrite apply_tfidf_run.
  destruct (apply_tfidf_steps train test mf tc gc); intros H; by inversion H.
Qed.

(** What a successful run of the steps went through. *)
Lemma apply_tfidf_steps_ok train test mf tc gc tr te :
  apply_tfidf_steps (F:=F) train test mf tc gc = Ok (tr, te) ->
  exists X_train ytr X_test yte v Xtr Xte vocabulary,
    df_getitem train tc = Ok X_train
    /\ df_getitem train gc = Ok (V1 ytr)
    /\ df_getitem test tc = Ok X_test
    /\ df_getitem test gc = Ok (V1 yte)
    /\ fit_transform (new_vectorizer mf) X_train = Ok (v, Xtr)
    /\ transform v X_test = Ok (v, Xte)
    /\ vocabulary_ v = Some vocabulary
    /\ NoDup vocabulary
    /\ (exists limit, as_limit mf = Ok limit
                      /\ forall n, limit = Some n -> length vocabulary <= n)
    /\ df_setitem (frame_of_matrix Xtr vocabulary) "label" (V1 ytr) = Ok tr
    /\ df_setitem (frame_of_matrix Xte vocabulary) "label" (V1 yte) = Ok te.
Proof.
  unfold apply_tfidf_steps. intros H.
  destruct (df_getitem train tc) as [X_train|] eqn:E1; simpl in H; [|done].
  destruct (df_getitem train gc) as [y_train|] eqn:E2; simpl in H; [|done].
  destruct (df_getitem test tc) as [X_test|] eqn:E3; simpl in H; [|done].
  destruct (df_getitem test gc) as [y_test|] eqn:E4; simpl in H; [|done].
  destruct (fit_transform (new_vectorizer mf) X_train) as [[v Xtr]|] eqn:E5;
    simpl in H; [|done].
  destruct (transform v X_test) as [[v' Xte]|] eqn:E6; simpl in H; [|done].
  pose proof (transform_keeps_vectorizer _ _ _ _ E6) as ->.
  destruct (fit_transform_ok _ _ _ _ E5) as (limit & vocabulary & idf & El & -> & Hnd & Hlen).
  simpl in H, El.
  destruct (df_setitem (frame_of_matrix Xtr vocabulary) "label" y_train)
    as [tr'|] eqn:E7; simpl in H; [|done].
  destruct (df_setitem (frame_of_matrix Xte vocabulary) "label" y_test)
    as [te'|] eqn:E8; simpl in H; [|done].
  inversion H; subst; clear H.
  destruct (df_setitem_V1 _ _ _ _ E7) as [ytr ->].
  destruct (df_setitem_V1 _ _ _ _ E8) as [yte ->].
  eexists X_train, ytr, X_test, yte, _, Xtr, Xte, vocabulary.
  split_and!; try done. by exists limit.
Qed.

Lemma count_docs_empty_text (cells : list (cell F)) :
  Forall (fun c => c = CStr "") cells ->
  count_docs false [] (docs_of (V1 cells)) = Ok ([], (fun _ => []) <$> cells).
Proof.
  unfold docs_of. induction 1 as [|c cells -> _ IH]; [done|].
  rewrite !fmap_cons. cbn [count_docs analyze_cell bindR].
  change (analyze "") with (@nil string). cbn [add_terms].
  by rewrite IH.
Qed.

(** C1. Whenever the stage succeeds, its vectorizer was fitted on the text
    column of the training set alone; the fitted vocabulary has at most
    [max_features] terms; transforming the text column of the test set
    leaves the vectorizer as it was; the test table is built over that
    vocabulary; and the training table is the same whatever the test set. *)
Theorem vocabulary_from_training_only train test mf tc gc w tr te w' :
  apply_tfidf (F:=F) train test mf tc gc w = (Ok (tr, te), w') ->
  exists X_train X_test v Xtr Xte vocabulary yte,
    df_getitem train tc = Ok X_train
    /\ df_getitem test tc = Ok X_test
    /\ fit_transform (new_vectorizer mf) X_train = Ok (v, Xtr)
    /\ vocabulary_ v = Some vocabulary
    /\ (forall n, as_limit mf = Ok (Some n) -> length vocabulary <= n)
    /\ (forall z, mf = PInt z -> (Z.of_nat (length vocabulary) <= z)%Z)
    /\ transform v X_test = Ok (v, Xte)
    /\ df_setitem (frame_of_matrix Xte vocabulary) "label" yte = Ok te
    /\ (forall test2 w2 tr2 te2 w2',
          apply_tfidf train test2 mf tc gc w2 = (Ok (tr2, te2), w2') -> tr2 = tr).
Proof.
  intros H. apply apply_tfidf_ok in H.
  destruct (apply_tfidf_steps_ok _ _ _ _ _ _ _ H)
    as (X_train & ytr & X_test & yte & v & Xtr & Xte & vocabulary
        & E1 & E2 & E3 & E4 & E5 & E6 & Ev & Hnd & (limit & El & Hlen) & E7 & E8).
  exists X_train, X_test, v, Xtr, Xte, vocabulary, (V1 yte).
  split_and!; try done.
  { intros n Hn. apply Hlen. rewrite Hn in El. by inversion El. }
  { intros z ->. simpl in El. destruct (Z.leb_spec 1 z) as [Hz|]; [|done].
    inversion El; subst. specialize (Hlen _ eq_refl). lia. }
  intros test2 w2 tr2 te2 w2' H2. apply apply_tfidf_ok in H2.
  destruct (apply_tfidf_steps_ok _ _ _ _ _ _ _ H2)
    as (X_train2 & ytr2 & X_test2 & yte2 & v2 & Xtr2 & Xte2 & vocabulary2
        & F1 & F2 & _ & _ & F5 & _ & Fv & _ & _ & F7 & _).
  rewrite E1 in F1; inversion F1; subst X_train2.
  rewrite E2 in F2; inversion F2; subst ytr2.
  rewrite E5 in F5; inversion F5; subst v2 Xtr2.
  rewrite Ev in Fv; inversion Fv; subst vocabulary2.
  rewrite E7 in F7. by inversion F7.
Qed.

(** C2. In both tables the stage returns, the column [label] holds the
    cells of the target column of the corresponding input, in the same
    order. *)
Theorem labels_equal_targets train test mf tc gc w tr te w' :
  apply_tfidf (F:=F) train test mf tc gc w = (Ok (tr, te), w') ->
  exists ytr yte,
    df_getitem train gc = Ok (V1 ytr)
    /\ df_getitem tr "label" = Ok (V1 ytr)
    /\ df_getitem test gc = Ok (V1 yte)
    /\ df_getitem te "label" = Ok (V1 yte).
Proof.
  intros H. apply apply_tfidf_ok in H.
  destruct (apply_tfidf_steps_ok _ _ _ _ _ _ _ H)
    as (X_train & ytr & X_test & yte & v & Xtr & Xte & vocabulary
        & E1 & E2 & E3 & E4 & E5 & E6 & Ev & Hnd & Hlen & E7 & E8).
  exists ytr, yte. split_and!; try done.
  - eapply df_setitem_getitem; [|done]. by rewrite frame_of_matrix_names.
  - eapply df_setitem_getitem; [|done]. by rewrite frame_of_matrix_names.
Qed.


(** C8. When every row of the training text column is the empty string,
    the pass over the training documents finds no term, and the stage
    signals a failure, logged and re-raised: of the two behaviours the
    scenario allows, the implementation takes the second.  With the other
    columns in place and a valid [max_features] the failure is the empty
    vocabulary. *)
Theorem empty_training_text_fails train test mf tc gc w cells :
  df_getitem (F:=F) train tc = Ok (V1 cells) ->
  Forall (fun c => c = CStr "") cells ->
  count_docs false [] (docs_of (V1 cells)) = Ok ([], (fun _ => []) <$> cells)
  /\ (exists e,
        apply_tfidf train test mf tc gc w =
          (Raise e,
           add_log w (mkLog ERROR "Error during TF-IDF transformation: %s" [AExn e])))
  /\ (forall ytr X_test yte limit,
        df_getitem train gc = Ok ytr -> df_getitem test tc = Ok X_test ->
        df_getitem test gc = Ok yte -> as_limit mf = Ok limit ->
        fst (apply_tfidf train test mf tc gc w) =
          Raise (ValueError "empty vocabulary; perhaps the documents only contain stop words")).
Proof.
  intros Hx Hall. pose proof (count_docs_empty_text _ Hall) as Hc.
  split_and!; [done| |].
  - rewrite apply_tfidf_run. unfold apply_tfidf_steps. rewrite Hx; cbn [bindR].
    destruct (df_getitem train gc); cbn [bindR]; [|eauto].
    destruct (df_getitem test tc); cbn [bindR]; [|eauto].
    destruct (df_getitem test gc); cbn [bindR]; [|eauto].
    unfold fit_transform; cbn [new_vectorizer max_features].
    destruct (as_limit mf); cbn [bindR]; [|eauto].
    unfold count_vocab. rewrite Hc; cbn. eauto.
  - intros ytr X_test yte limit E2 E3 E4 El.
    rewrite apply_tfidf_run. unfold apply_tfidf_steps.
    rewrite Hx, E2, E3, E4; cbn [bindR].
    unfold fit_transform; cbn [new_vectorizer max_features]. rewrite El; cbn [bindR].
    unfold count_vocab. by rewrite Hc.
Qed.

(** C10. When the fitted vocabulary contains the term [label], the tables
    of the stage have exactly one column per vocabulary term: the column
    named [label] stays where the term stands in the vocabulary and holds
    the target cells, the weights of the term are gone, and no column is
    appended. *)
Theorem label_term_column_overwritten train test mf tc gc w tr te w'
    X_train v Xtr vocabulary :
  apply_tfidf (F:=F) train test mf tc gc w = (Ok (tr, te), w') ->
  df_getitem train tc = Ok X_train ->
  fit_transform (new_vectorizer mf) X_train = Ok (v, Xtr) ->
  vocabulary_ v = Some vocabulary ->
  "label" ∈ vocabulary ->
  exists ytr yte Xte,
    df_getitem train gc = Ok (V1 ytr)
    /\ df_getitem test gc = Ok (V1 yte)
    /\ fmap fst (columns tr) = vocabulary
    /\ fmap fst (columns te) = vocabulary
    /\ columns tr =
         (fun c => if bool_decide (fst c = "label") then ("label", ytr) else c)
           <$> columns (frame_of_matrix Xtr vocabulary)
    /\ columns te =
         (fun c => if bool_decide (fst c = "label") then ("label", yte) else c)
           <$> columns (frame_of_matrix Xte vocabulary)
    /\ df_getitem tr "label" = Ok (V1 ytr)
    /\ df_getitem te "label" = Ok (V1 yte).
Proof.
  intros H Hx Hfit Hv Hin. apply apply_tfidf_ok in H.
  destruct (apply_tfidf_steps_ok _ _ _ _ _ _ _ H)
    as (X_train' & ytr & X_test & yte & v' & Xtr' & Xte & vocabulary'
        & E1 & E2 & E3 & E4 & E5 & E6 & Ev & Hnd & Hlen & E7 & E8).
  rewrite Hx in E1; inversion E1; subst X_train'.
  rewrite Hfit in E5; inversion E5; subst v' Xtr'.
  rewrite Hv in Ev; inversion Ev; subst vocabulary'.
  destruct (df_setitem_columns _ _ _ _ E7) as [_ Ctr].
  destruct (df_setitem_columns _ _ _ _ E8) as [_ Cte].
  rewrite frame_of_matrix_names, bool_decide_eq_true_2 in Ctr by done.
  rewrite frame_of_matrix_names, bool_decide_eq_true_2 in Cte by done.
  exists ytr, yte, Xte. split_and!; try done.
  - by rewrite Ctr, names_label_replaced, frame_of_matrix_names.
  - by rewrite Cte, names_label_replaced, frame_of_matrix_names.
  - eapply df_setitem_getitem; [|done]. by rewrite frame_of_matrix_names.
  - eapply df_setitem_getitem; [|done]. by rewrite frame_of_matrix_names.
Qed.

End VectorizerProps.

Section Writer.
Context {F : Type} {fl : FloatOps F} {lib : Libs}.

Lemma lookup_node_weaken (m m' : gmap (list string) node) q x :
  lookup_node m q = Some x -> m ⊆ m' -> lookup_node m' q = Some x.
Proof.
  unfold lookup_node. destruct (is_root q); [done|].
  intros H Hsub. by eapply lookup_weaken.
Qed.

Lemma lookup_node_insert_dir (m : gmap (list string) node) p :
  lookup_node (<[p := Dir]> m) p = Some Dir.
Proof.
  unfold lookup_node. destruct (is_root p); [done|]. apply lookup_insert_eq.
Qed.

Lemma lookup_node_None (m : gmap (list string) node) p :
  lookup_node m p = None -> m !! p = None.
Proof. unfold lookup_node. by destruct (is_root p). Qed.

(** [makedirs_from] keeps what exists and leaves a directory at every
    prefix of the path it was given. *)
Lemma makedirs_from_ok (name : string) (pre rest : list string)
    (m m' : gmap (list string) node) :
  makedirs_from name pre rest m = Ok m' ->
  m ⊆ m'
  /\ forall k, 0 < k <= length rest -> lookup_node m' (pre ++ take k rest) = Some Dir.
Proof.
  revert pre m. induction rest as [|c rest IH]; simpl; intros pre m H.
  - inversion H; subst. split; [done|]. intros k; lia.
  - destruct (lookup_node m (pre ++ [c])) as [[|content]|] eqn:E.
    + destruct (IH _ _ H) as [Hsub Hk]. split; [done|].
      intros [|k] Hlen; [lia|]. simpl. destruct k as [|k].
      * rewrite take_0. by eapply lookup_node_weaken.
      * rewrite cons_middle, app_assoc. apply Hk. lia.
    + by destruct rest.
    + destruct (IH _ _ H) as [Hsub Hk].
      apply lookup_node_None in E. split.
      * etrans; [|done]. by apply insert_subseteq.
      * intros [|k] Hlen; [lia|]. simpl. destruct k as [|k].
        -- rewrite take_0. eapply lookup_node_weaken; [|done].
           apply lookup_node_insert_dir.
        -- rewrite cons_middle, app_assoc. apply Hk. lia.
Qed.

Lemma makedirs_cases (name : string) w :
  (exists e, makedirs name w = (Raise e, w))
  \/ (exists m,
        makedirs name w = (Ok tt, mkWorld m (log w) (stdout w))
        /\ fs w ⊆ m
        /\ forall k, 0 < k <= length (components name) ->
                     lookup_node m (take k (components name)) = Some Dir).
Proof.
  unfold makedirs. destruct (String.eqb name ""); [eauto|].
  destruct (makedirs_from name [] (components name) (fs w)) as [m|e] eqn:Em; [|eauto].
  right. exists m. destruct (makedirs_from_ok _ _ _ _ _ Em) as [Hsub Hk]. eauto.
Qed.



(** X7. A destination without a directory part: the directory name is
    empty, creating it is refused, and nothing is written; the writer logs
    the not-found error of the empty name and re-raises it. *)
Lemma save_data_bare_file_name (df : DataFrame F) name w :
  dirname name = "" ->
  save_data df name w =
    (Raise (FileNotFoundError ""),
     add_log w (mkLog ERROR "Unexpected error occurred while saving the data: %s"
                      [AExn (FileNotFoundError "")])).
Proof.
  intros H. unfold save_data, save_data_try, try_except, bind, makedirs.
  rewrite H. reflexivity.
Qed.

End Writer.

Section Loader.
Context {F : Type} {fl : FloatOps F} {lib : Libs}.









End Loader.

Section RoundTrip.
Context {F : Type} {fl : FloatOps F} {lib : Libs}.

(** *** Header labels that need no renaming *)




(** *** Columns read back *)



#[local] Abbreviation fill := (fill_cell "").






(** *** Saving *)

Lemma save_data_written (df : DataFrame F) path w w1 :
  save_data df path w = (Ok tt, w1) ->
  lookup_node (fs w1) (components path) = Some (File (csv_write (frame_lines df))).
Proof.
  unfold save_data, save_data_try, try_except, bind.
  destruct (makedirs (dirname path) w) as [[[]|e] w0]; [|by run].
  unfold to_csv, write_file.
  destruct (String.eqb path ""); [by run|].
  destruct (lookup_node (fs w0) (removelast (components path))) as [[|c]|];
    try by run.
  unfold lookup_node at 1.
  destruct (is_root (components path)) eqn:Er; [by run|].
  destruct (fs w0 !! components path) as [[|c]|] eqn:Ep; run; intros H;
    inversion H; subst; clear H; unfold lookup_node; cbn [fs add_log];
    try done; by rewrite Er, lookup_insert_eq.
Qed.

(** *** The tables of the stage are feature tables *)

Lemma tokenize_go_length cur s t :
  t ∈ tokenize_go cur s -> 2 <= String.length t.
Proof.
  revert cur. induction s as [|c s IH]; intros cur; simpl.
  - unfold emit_token. destruct (Nat.leb_spec 2 (String.length cur)); intros Ht.
    + apply list_elem_of_singleton in Ht. by subst.
    + by apply elem_of_nil in Ht.
  - destruct (is_word_char c); [apply IH|].
    intros Ht. apply elem_of_app in Ht as [Ht|Ht]; [|by eapply IH].
    unfold emit_token in Ht. destruct (Nat.leb_spec 2 (String.length cur)).
    + apply list_elem_of_singleton in Ht. by subst.
    + by apply elem_of_nil in Ht.
Qed.

Lemma analyze_nonempty doc : "" ∉ analyze doc.
Proof. intros H. apply tokenize_go_length in H. simpl in H. lia. Qed.

Lemma add_terms_elem fixed vocabulary tokens t :
  t ∈ add_terms fixed vocabulary tokens -> t ∈ vocabulary \/ t ∈ tokens.
Proof.
  revert vocabulary. induction tokens as [|x ts IH]; simpl; intros v H; [by left|].
  assert (t ∈ v \/ t ∈ ts -> t ∈ v \/ t ∈ x :: ts) as Hw.
  { intros [?|?]; [by left|right; by apply list_elem_of_further]. }
  case_bool_decide; [by apply Hw, IH|].
  destruct fixed; [by apply Hw, IH|].
  apply IH in H as [H|H]; [|right; by apply list_elem_of_further].
  apply elem_of_app in H as [H|H]; [by left|].
  apply list_elem_of_singleton in H. subst. right. apply list_elem_of_here.
Qed.

Lemma count_docs_elem fixed vocabulary docs r t :
  count_docs fixed vocabulary docs = Ok r -> t ∈ fst r ->
  t ∈ vocabulary \/ exists toks, Ok toks ∈ docs /\ t ∈ toks.
Proof.
  revert vocabulary r. induction docs as [|d ds IH]; simpl; intros v r H Ht.
  - inversion H; subst. by left.
  - destruct d as [toks|e]; simpl in H; [|done].
    destruct (count_docs fixed (add_terms fixed v toks) ds) as [r'|e] eqn:E;
      simpl in H; [|done].
    inversion H; subst; simpl in Ht.
    destruct (IH _ _ E Ht) as [Hv|(toks' & Hin & Ht')].
    + apply add_terms_elem in Hv as [?|?]; [by left|].
      right. exists toks. split; [apply list_elem_of_here|done].
    + right. exists toks'. split; [by apply list_elem_of_further|done].
Qed.

Lemma docs_of_nonempty (raw : values F) toks :
  Ok toks ∈ docs_of raw -> "" ∉ toks.
Proof.
  destruct raw as [cells|rows]; simpl; intros H.
  - apply list_elem_of_fmap in H as (c & Hc & _).
    destruct c; simpl in Hc; try done. inversion Hc. apply analyze_nonempty.
  - by apply elem_of_replicate in H as [? _].
Qed.

Lemma fit_transform_terms (v v' : TfidfVectorizer (F:=F)) raw X vocabulary :
  fit_transform v raw = Ok (v', X) -> vocabulary_ v' = Some vocabulary ->
  "" ∉ vocabulary.
Proof.
  unfold fit_transform. intros H Hv Hin.
  destruct (as_limit (max_features v)) as [limit|e]; simpl in H; [|done].
  unfold count_vocab in H.
  destruct (count_docs false [] (docs_of raw)) as [r|e] eqn:Ec; simpl in H; [|done].
  destruct (bool_decide (fst r = [])); simpl in H; [done|].
  inversion H; subst; simpl in Hv; inversion Hv; subst; clear H Hv.
  apply limit_features_subset in Hin. rewrite sort_features_perm in Hin.
  destruct (count_docs_elem _ _ _ _ _ Ec Hin) as [Hnil|(toks & Hd & Ht)].
  - by apply elem_of_nil in Hnil.
  - by apply (docs_of_nonempty _ _ Hd).
Qed.

Lemma frame_of_matrix_lengths (X : list (list F)) names :
  Forall (fun c => length (snd c) = index_len (frame_of_matrix X names))
         (columns (frame_of_matrix X names)).
Proof.
  apply Forall_forall. intros [name col] Hc.
  apply list_elem_of_lookup in Hc as [j Hj]. simpl in Hj.
  rewrite list_lookup_imap in Hj. destruct (names !! j); [|done].
  simpl in Hj. inversion Hj; subst. simpl. by rewrite length_fmap.
Qed.

Lemma df_setitem_feature_table (df df' : DataFrame F) cells :
  Forall (fun c => length (snd c) = index_len df) (columns df) ->
  NoDup (fmap fst (columns df)) -> "" ∉ fmap fst (columns df) ->
  df_setitem df "label" (V1 cells) = Ok df' ->
  feature_table df'.
Proof.
  intros Hlen Hnd He H. unfold df_setitem in H.
  destruct (Nat.eqb_spec (length cells) (index_len df)) as [Hc|]; [|done].
  inversion H; subst; clear H. unfold feature_table; simpl.
  case_bool_decide as Hin.
  - rewrite names_label_replaced. split_and!; try done.
    apply Forall_fmap. eapply Forall_impl; [done|].
    intros [k c] Hk; simpl in *. by case_bool_decide.
  - rewrite fmap_app; simpl. split_and!.
    + apply Forall_app. split; [done|]. by constructor.
    + apply NoDup_app. split_and!; [done| |apply NoDup_singleton].
      intros x Hx Hx'. apply list_elem_of_singleton in Hx'. by subst.
    + intros Hx. apply elem_of_app in Hx as [Hx|Hx]; [done|].
      by apply list_elem_of_singleton in Hx.
    + apply elem_of_app. right. apply list_elem_of_here.
Qed.

(** Both tables of a successful stage are feature tables. *)
Lemma apply_tfidf_feature_tables train test mf tc gc tr te :
  apply_tfidf_steps (F:=F) train test mf tc gc = Ok (tr, te) ->
  feature_table tr /\ feature_table te.
Proof.
  intros H.
  destruct (apply_tfidf_steps_ok _ _ _ _ _ _ _ H)
    as (X_train & ytr & X_test & yte & v & Xtr & Xte & vocabulary
        & E1 & E2 & E3 & E4 & E5 & E6 & Ev & Hnd & Hlen & E7 & E8).
  pose proof (fit_transform_terms _ _ _ _ _ E5 Ev) as He.
  split; (eapply df_setitem_feature_table; [| | |done]);
    try apply frame_of_matrix_lengths; by rewrite frame_of_matrix_names.
Qed.

(** *** Saving, then loading *)


End RoundTrip.

(** ** What each operation leaves alone *)

(** A computation that never writes to the standard output, and one that
    never changes the file system. *)
Definition keeps_stdout {A} (m : M A) : Prop :=
  forall w, stdout (snd (m w)) = stdout w.

Definition keeps_fs {A} (m : M A) : Prop :=
  forall w, fs (snd (m w)) = fs w.

Create HintDb frame.

Section Effects.
Context {F : Type} {fl : FloatOps F} {lib : Libs}.

Lemma keeps_stdout_bind {A B} (m : M A) (k : A -> M B) :
  keeps_stdout m -> (forall a, keeps_stdout (k a)) -> keeps_stdout (bind m k).
Proof.
  intros Hm Hk w. unfold bind. specialize (Hm w).
  destruct (m w) as [[a|e] w1]; simpl in *; [|done]. by rewrite Hk.
Qed.

Lemma keeps_stdout_try {A} (body : M A) (handler : exn -> M A) :
  keeps_stdout body -> (forall e, keeps_stdout (handler e)) ->
  keeps_stdout (try_except body handler).
Proof.
  intros Hm Hk w. unfold try_except. specialize (Hm w).
  destruct (body w) as [[a|e] w1]; simpl in *; [done|]. by rewrite Hk.
Qed.

Lemma keeps_fs_bind {A B} (m : M A) (k : A -> M B) :
  keeps_fs m -> (forall a, keeps_fs (k a)) -> keeps_fs (bind m k).
Proof.
  intros Hm Hk w. unfold bind. specialize (Hm w).
  destruct (m w) as [[a|e] w1]; simpl in *; [|done]. by rewrite Hk.
Qed.

Lemma keeps_fs_try {A} (body : M A) (handler : exn -> M A) :
  keeps_fs body -> (forall e, keeps_fs (handler e)) ->
  keeps_fs (try_except body handler).
Proof.
  intros Hm Hk w. unfold try_except. specialize (Hm w).
  destruct (body w) as [[a|e] w1]; simpl in *; [done|]. by rewrite Hk.
Qed.

Lemma keeps_stdout_pure {A} (r : result A) : keeps_stdout (lift r).
Proof. done. Qed.

Lemma keeps_fs_pure {A} (r : result A) : keeps_fs (lift r).
Proof. done. Qed.

Lemma keeps_stdout_ret {A} (a : A) : keeps_stdout (ret a).
Proof. done. Qed.

Lemma keeps_fs_ret {A} (a : A) : keeps_fs (ret a).
Proof. done. Qed.

Lemma keeps_stdout_raise {A} e : keeps_stdout (raise (A:=A) e).
Proof. done. Qed.

Lemma keeps_fs_raise {A} e : keeps_fs (raise (A:=A) e).
Proof. done. Qed.

Lemma keeps_stdout_emit l f a : keeps_stdout (emit l f a).
Proof. done. Qed.

Lemma keeps_fs_emit l f a : keeps_fs (emit l f a).
Proof. done. Qed.

Lemma keeps_fs_print s : keeps_fs (print s).
Proof. done. Qed.

Lemma read_file_world path w : snd (read_file path w) = w.
Proof.
  unfold read_file. destruct (String.eqb path ""); [done|].
  by destruct (lookup_node (fs w) (components path)) as [[|c]|].
Qed.

Lemma keeps_stdout_read_file path : keeps_stdout (read_file path).
Proof. intros w. by rewrite read_file_world. Qed.

Lemma keeps_fs_read_file path : keeps_fs (read_file path).
Proof. intros w. by rewrite read_file_world. Qed.

Lemma keeps_stdout_makedirs name : keeps_stdout (makedirs name).
Proof.
  intros w. unfold makedirs. destruct (String.eqb name ""); [done|].
  by destruct (makedirs_from name [] (components name) (fs w)).
Qed.

Lemma keeps_stdout_write_file path content : keeps_stdout (write_file path content).
Proof.
  intros w. unfold write_file. destruct (String.eqb path ""); [done|].
  destruct (lookup_node (fs w) (removelast (components path))) as [[|c]|]; try done.
  by destruct (lookup_node (fs w) (components path)) as [[|c]|].
Qed.

Lemma keeps_stdout_open_append path : keeps_stdout (open_append path).
Proof.
  intros w. unfold open_append. destruct (String.eqb path ""); [done|].
  destruct (lookup_node (fs w) (removelast (components path))) as [[|c]|]; try done.
  by destruct (lookup_node (fs w) (components path)) as [[|c]|].
Qed.

Hint Resolve keeps_stdout_pure keeps_fs_pure keeps_stdout_ret keeps_fs_ret
  keeps_stdout_raise keeps_fs_raise keeps_stdout_emit keeps_fs_emit keeps_fs_print
  keeps_stdout_read_file keeps_fs_read_file keeps_stdout_makedirs
  keeps_stdout_write_file keeps_stdout_open_append : frame.

(** Taking a computation apart along its binds and handlers. *)
Ltac frame_intro :=
  lazymatch goal with
  | |- keeps_fs _ => fail
  | |- keeps_stdout _ => fail
  | |- _ => intro
  end.

Ltac frame :=
  repeat first
    [ solve [auto with frame]
    | apply keeps_stdout_bind | apply keeps_fs_bind
    | apply keeps_stdout_try | apply keeps_fs_try
    | match goal with |- context [if ?b then _ else _] => destruct b end
    | frame_intro ].

Lemma keeps_fs_load_params path : keeps_fs (load_params path).
Proof. unfold load_params, load_params_try, logger_debug, logger_error. frame. Qed.

Lemma keeps_stdout_load_params path : keeps_stdout (load_params path).
Proof. unfold load_params, load_params_try, logger_debug, logger_error. frame. Qed.

Lemma keeps_fs_load_data path : keeps_fs (load_data (F:=F) path).
Proof.
  unfold load_data, load_data_try, pd_read_csv, logger_debug, logger_error. frame.
Qed.

Lemma keeps_stdout_load_data path : keeps_stdout (load_data (F:=F) path).
Proof.
  unfold load_data, load_data_try, pd_read_csv, logger_debug, logger_error. frame.
Qed.

Lemma keeps_fs_apply_tfidf (train test : DataFrame F) mf tc gc :
  keeps_fs (apply_tfidf train test mf tc gc).
Proof. unfold apply_tfidf, apply_tfidf_try, logger_debug, logger_error. frame. Qed.

Lemma keeps_stdout_apply_tfidf (train test : DataFrame F) mf tc gc :
  keeps_stdout (apply_tfidf train test mf tc gc).
Proof. unfold apply_tfidf, apply_tfidf_try, logger_debug, logger_error. frame. Qed.



End Effects.

(** ** The loaders on every input *)

Section LoaderOutcomes.
Context {F : Type} {fl : FloatOps F} {lib : Libs}.

Lemma read_file_ok path w text w0 :
  read_file path w = (Ok text, w0) ->
  lookup_node (fs w) (components path) = Some (File text).
Proof.
  unfold read_file. destruct (String.eqb path ""); [done|].
  destruct (lookup_node (fs w) (components path)) as [[|c]|]; intros H;
    by inversion H.
Qed.







End LoaderOutcomes.

(** ** The vectorizer stage on every input *)

Section StageOutcomes.
Context {F : Type} {fl : FloatOps F}.

Lemma df_getitem_missing (df : DataFrame F) col :
  col ∉ fmap fst (columns df) -> df_getitem df col = Raise (KeyError col).
Proof. intros H. unfold df_getitem. by rewrite (filter_label_none _ _ H). Qed.

Lemma df_getitem_present (df : DataFrame F) col :
  col ∈ fmap fst (columns df) -> exists v, df_getitem df col = Ok v.
Proof.
  intros H. apply list_elem_of_fmap in H as (c & Hc & Hin).
  assert (c ∈ filter (fun c => fst c = col) (columns df)) as Hf.
  { apply list_elem_of_filter. by split. }
  unfold df_getitem.
  destruct (filter (fun c => fst c = col) (columns df)) as [|c1 [|c2 l]]; [|eauto..].
  by apply elem_of_nil in Hf.
Qed.

(** X4. A missing column.  The stage looks up the text column and the
    target column of the training set, then those of the test set; the
    first of the four that is missing makes it fail with the key error of
    that column, logged and re-raised. *)
Theorem apply_tfidf_missing_column (train test : DataFrame F) mf tc gc w :
  let failed col :=
    apply_tfidf train test mf tc gc w =
      (Raise (KeyError col),
       add_log w (mkLog ERROR "Error during TF-IDF transformation: %s"
                        [AExn (KeyError col)])) in
  (tc ∉ fmap fst (columns train) -> failed tc)
  /\ (tc ∈ fmap fst (columns train) -> gc ∉ fmap fst (columns train) -> failed gc)
  /\ (tc ∈ fmap fst (columns train) -> gc ∈ fmap fst (columns train) ->
      tc ∉ fmap fst (columns test) -> failed tc)
  /\ (tc ∈ fmap fst (columns train) -> gc ∈ fmap fst (columns train) ->
      tc ∈ fmap fst (columns test) -> gc ∉ fmap fst (columns test) -> failed gc).
Proof.
  intros failed; subst failed; cbv beta. rewrite apply_tfidf_run.
  unfold apply_tfidf_steps. split_and!.
  - intros H1. by rewrite (df_getitem_missing _ _ H1).
  - intros H1 H2. destruct (df_getitem_present _ _ H1) as [v1 ->].
    by rewrite (df_getitem_missing _ _ H2).
  - intros H1 H2 H3. destruct (df_getitem_present _ _ H1) as [v1 ->].
    destruct (df_getitem_present _ _ H2) as [v2 ->].
    by rewrite (df_getitem_missing _ _ H3).
  - intros H1 H2 H3 H4. destruct (df_getitem_present _ _ H1) as [v1 ->].
    destruct (df_getitem_present _ _ H2) as [v2 ->].
    destruct (df_getitem_present _ _ H3) as [v3 ->].
    by rewrite (df_getitem_missing _ _ H4).
Qed.

Lemma count_docs_rows fixed vocabulary docs r :
  count_docs fixed vocabulary docs = Ok r ->
  length (snd r) = length docs /\ Forall (fun d => exists toks, d = Ok toks) docs.
Proof.
  revert vocabulary r. induction docs as [|d ds IH]; simpl; intros v r H.
  - by inversion H.
  - destruct d as [toks|e]; simpl in H; [|done].
    destruct (count_docs fixed (add_terms fixed v toks) ds) as [r'|e] eqn:E;
      simpl in H; [|done].
    inversion H; subst; simpl. destruct (IH _ _ E) as [Hlen Hall].
    split; [by rewrite Hlen|]. constructor; eauto.
Qed.

Lemma fit_transform_rows (v v' : TfidfVectorizer (F:=F)) raw X :
  fit_transform v raw = Ok (v', X) ->
  length X = length (docs_of raw)
  /\ Forall (fun d => exists toks, d = Ok toks) (docs_of raw).
Proof.
  unfold fit_transform. intros H.
  destruct (as_limit (max_features v)) as [limit|e]; simpl in H; [|done].
  unfold count_vocab in H.
  destruct (count_docs false [] (docs_of raw)) as [r|e] eqn:Ec; simpl in H; [|done].
  destruct (bool_decide (fst r = [])); simpl in H; [done|].
  inversion H; subst. destruct (count_docs_rows _ _ _ _ Ec) as [Hlen Hall].
  split; [|done]. unfold count_matrix. by rewrite !length_fmap.
Qed.

Lemma transform_rows (v v' : TfidfVectorizer (F:=F)) raw X :
  transform v raw = Ok (v', X) ->
  length X = length (docs_of raw)
  /\ Forall (fun d => exists toks, d = Ok toks) (docs_of raw).
Proof.
  unfold transform. destruct (vocabulary_ v) as [vocabulary|]; [|done].
  destruct (idf_ v) as [idf|]; [|done]. unfold count_vocab.
  destruct (count_docs true vocabulary (docs_of raw)) as [r|e] eqn:Ec; simpl; [|done].
  intros H; inversion H; subst. destruct (count_docs_rows _ _ _ _ Ec) as [Hlen Hall].
  split; [|done]. unfold count_matrix. by rewrite !length_fmap.
Qed.

Lemma df_setitem_names (df df' : DataFrame F) key cells :
  df_setitem df key (V1 cells) = Ok df' ->
  length cells = index_len df
  /\ index_len df' = index_len df
  /\ fmap fst (columns df') =
       if bool_decide (key ∈ fmap fst (columns df)) then fmap fst (columns df)
       else fmap fst (columns df) ++ [key].
Proof.
  unfold df_setitem.
  destruct (Nat.eqb_spec (length cells) (index_len df)) as [Hlen|]; [|done].
  intros H; inversion H; subst; clear H; simpl. split_and!; [done|done|].
  case_bool_decide; [apply names_label_replaced|by rewrite fmap_app].
Qed.

(** X5. The two tables of a successful stage fit together: each is a
    feature table (columns as long as the index, distinct non-empty labels,
    one of them [label]); both have the same column labels in the same
    order; each has as many rows as the text column of its input has
    documents and as its target column has cells; and the run logs one debug
    record with the two shapes and nothing else. *)
Theorem apply_tfidf_tables_aligned (train test : DataFrame F) mf tc gc w tr te w' :
  apply_tfidf train test mf tc gc w = (Ok (tr, te), w') ->
  feature_table tr /\ feature_table te
  /\ fmap fst (columns tr) = fmap fst (columns te)
  /\ (exists xtr ytr xte yte,
        df_getitem train tc = Ok xtr /\ df_getitem train gc = Ok (V1 ytr)
        /\ df_getitem test tc = Ok xte /\ df_getitem test gc = Ok (V1 yte)
        /\ index_len tr = length (docs_of xtr) /\ index_len tr = length ytr
        /\ index_len te = length (docs_of xte) /\ index_len te = length yte)
  /\ w' = add_log w (mkLog DEBUG "TF-IDF applied. Train shape: %s, Test shape: %s"
                           [shape tr; shape te]).
Proof.
  intros H. pose proof (apply_tfidf_ok _ _ _ _ _ _ _ _ H) as Hs.
  destruct (apply_tfidf_feature_tables _ _ _ _ _ _ _ Hs) as [Htr Hte].
  destruct (apply_tfidf_steps_ok _ _ _ _ _ _ _ Hs)
    as (X_train & ytr & X_test & yte & v & Xtr & Xte & vocabulary
        & E1 & E2 & E3 & E4 & E5 & E6 & Ev & Hnd & Hlen & E7 & E8).
  destruct (df_setitem_names _ _ _ _ E7) as (L1 & I1 & N1).
  destruct (df_setitem_names _ _ _ _ E8) as (L2 & I2 & N2).
  rewrite frame_of_matrix_names in N1, N2.
  destruct (fit_transform_rows _ _ _ _ E5) as [R1 _].
  destruct (transform_rows _ _ _ _ E6) as [R2 _].
  simpl in I1, I2, L1, L2.
  split_and!; [done|done|by rewrite N1, N2| |].
  - exists X_train, ytr, X_test, yte. split_and!; try done; congruence.
  - rewrite apply_tfidf_run, Hs in H. by inversion H.
Qed.

(** X6. Documents that are no text.  When a cell of the text column of the
    training set or of the test set is not a string (a number, a Boolean, a
    missing value), the stage fails: an exception is logged and re-raised,
    and no table is returned. *)
Theorem apply_tfidf_non_text_fails (train test : DataFrame F) mf tc gc w cells c :
  df_getitem train tc = Ok (V1 cells) \/ df_getitem test tc = Ok (V1 cells) ->
  c ∈ cells ->
  (forall s, c <> CStr s) ->
  exists e,
    apply_tfidf train test mf tc gc w =
      (Raise e, add_log w (mkLog ERROR "Error during TF-IDF transformation: %s" [AExn e])).
Proof.
  intros Hcol Hc Hs. rewrite apply_tfidf_run.
  destruct (apply_tfidf_steps train test mf tc gc) as [[tr te]|e] eqn:E; [|eauto].
  exfalso.
  destruct (apply_tfidf_steps_ok _ _ _ _ _ _ _ E)
    as (X_train & ytr & X_test & yte & v & Xtr & Xte & vocabulary
        & E1 & E2 & E3 & E4 & E5 & E6 & _).
  assert (Forall (fun d => exists toks, d = Ok toks) (docs_of (V1 cells))) as Hall.
  { destruct Hcol as [Hx|Hx].
    - rewrite Hx in E1; inversion E1; subst. by apply (fit_transform_rows _ _ _ _ E5).
    - rewrite Hx in E3; inversion E3; subst. by apply (transform_rows _ _ _ _ E6). }
  simpl in Hall. rewrite Forall_fmap, Forall_forall in Hall.
  destruct (Hall c Hc) as [toks Ht]. destruct c; simpl in Ht; try done.
  by eapply Hs.
Qed.

(** X19. A limit that is an integer below one is refused.  With the four
    columns in place the stage fails when the vectorizer is fitted: the
    error is logged and re-raised, and no table is returned. *)
Theorem apply_tfidf_rejects_limit (train test : DataFrame F) z tc gc w :
  tc ∈ fmap fst (columns train) -> gc ∈ fmap fst (columns train) ->
  tc ∈ fmap fst (columns test) -> gc ∈ fmap fst (columns test) ->
  (z < 1)%Z ->
  exists e,
    apply_tfidf train test (PInt z) tc gc w =
      (Raise e, add_log w (mkLog ERROR "Error during TF-IDF transformation: %s" [AExn e])).
Proof.
  intros H1 H2 H3 H4 Hz. rewrite apply_tfidf_run. unfold apply_tfidf_steps.
  destruct (df_getitem_present _ _ H1) as [v1 ->].
  destruct (df_getitem_present _ _ H2) as [v2 ->].
  destruct (df_getitem_present _ _ H3) as [v3 ->].
  destruct (df_getitem_present _ _ H4) as [v4 ->].
  cbn [bindR]. unfold fit_transform, new_vectorizer; cbn [max_features as_limit].
  destruct (Z.leb_spec 1 z); [lia|]. cbn [bindR]. eauto.
Qed.

End StageOutcomes.

(** ** The writer on every input *)

Section WriterOutcomes.
Context {F : Type} {fl : FloatOps F} {lib : Libs}.

(** What [makedirs] adds: directories on the way to [name], nothing else. *)
Lemma makedirs_from_new (name : string) (pre rest : list string)
    (m m' : gmap (list string) node) :
  makedirs_from name pre rest m = Ok m' ->
  forall q x, m' !! q = Some x ->
    m !! q = Some x
    \/ (x = Dir /\ exists k, 0 < k <= length rest /\ q = pre ++ take k rest).
Proof.
  revert pre m. induction rest as [|c rest IH]; simpl; intros pre m H q x Hx.
  - inversion H; subst. by left.
  - destruct (lookup_node m (pre ++ [c])) as [[|content]|] eqn:E.
    + destruct (IH _ _ H q x Hx) as [?|(-> & k & Hk & ->)]; [by left|].
      right. split; [done|]. exists (S k). split; [lia|].
      by rewrite <- app_assoc.
    + by destruct rest.
    + destruct (IH _ _ H q x Hx) as [Hq|(-> & k & Hk & ->)].
      * destruct (decide (pre ++ [c] = q)) as [<-|Hne].
        -- rewrite lookup_insert_eq in Hq. inversion Hq; subst.
           right. split; [done|]. exists 1. split; [lia|]. reflexivity.
        -- rewrite lookup_insert_ne in Hq by done. by left.
      * right. split; [done|]. exists (S k). split; [lia|].
        by rewrite <- app_assoc.
Qed.

Lemma makedirs_new name w w' :
  makedirs name w = (Ok tt, w') ->
  forall q x, fs w' !! q = Some x ->
    fs w !! q = Some x
    \/ (x = Dir /\ exists k, 0 < k <= length (components name)
                              /\ q = take k (components name)).
Proof.
  unfold makedirs. destruct (String.eqb name ""); [done|].
  destruct (makedirs_from name [] (components name) (fs w)) as [m|e] eqn:Em; [|done].
  intros H. inversion H; subst w'; cbn [fs]. intros q x Hx.
  exact (makedirs_from_new _ _ _ _ _ Em q x Hx).
Qed.



(** The world a call of the writer leaves: the directories made, the file
    written or not, one more log record. *)
Lemma save_data_world (df : DataFrame F) path w :
  exists m r,
    fs w ⊆ m
    /\ (snd (save_data df path w) = mkWorld m (log w ++ [r]) (stdout w)
        \/ (lookup_node m (components path) <> Some Dir
            /\ fst (save_data df path w) = Ok tt
            /\ snd (save_data df path w)
               = mkWorld (<[components path := File (csv_write (frame_lines df))]> m)
                         (log w ++ [r]) (stdout w)))
    /\ (fst (save_data df path w) = Ok tt ->
        forall k, 0 < k <= length (components (dirname path)) ->
                  lookup_node m (take k (components (dirname path))) = Some Dir).
Proof.
  unfold save_data, save_data_try, try_except, bind.
  destruct (makedirs_cases (dirname path) w) as [[e He]|(m & Hm & Hsub & Hk)].
  { rewrite He. run. exists (fs w). eexists. split_and!; [done|by left|done]. }
  rewrite Hm. unfold to_csv, write_file; cbn [fs log stdout].
  exists m. destruct (String.eqb path "").
  { run. eexists. split_and!; [done|by left|done]. }
  destruct (lookup_node m (removelast (components path))) as [[|c]|];
    try (run; eexists; split_and!; [done|by left|done]).
  destruct (lookup_node m (components path)) as [[|c]|] eqn:Ep; run; eexists.
  - split_and!; [done|by left|done].
  - split_and!; [done|by right|intros _; exact Hk].
  - split_and!; [done|by right|intros _; exact Hk].
Qed.




(** After a successful call the directories of the destination are
    directories, and what other calls wrote before is still there. *)
Lemma save_data_ok (df : DataFrame F) path w w1 :
  save_data df path w = (Ok tt, w1) ->
  (forall k, 0 < k <= length (components (dirname path)) ->
             lookup_node (fs w1) (take k (components (dirname path))) = Some Dir)
  /\ (forall q x, q <> components path -> fs w !! q = Some x -> fs w1 !! q = Some x)
  /\ stdout w1 = stdout w
  /\ exists r, log w1 = log w ++ [r].
Proof.
  intros H.
  destruct (save_data_world df path w) as (m & r & Hsub & Hcases & Hdirs).
  rewrite H in Hcases, Hdirs. simpl in Hcases, Hdirs. specialize (Hdirs eq_refl).
  destruct Hcases as [->|(Hp & _ & ->)]; cbn [fs log stdout];
    (split_and!; [|intros q x Hq Hx|done|eauto]).
  - done.
  - by eapply lookup_weaken.
  - intros k Hk. specialize (Hdirs k Hk).
    assert (components path <> take k (components (dirname path))) as Hne
      by (intros Heq; by rewrite Heq in Hp).
    unfold lookup_node in *.
    destruct (is_root (take k (components (dirname path)))); [done|].
    by rewrite lookup_insert_ne.
  - rewrite lookup_insert_ne by done. by eapply lookup_weaken.
Qed.

End WriterOutcomes.

(** ** The driver on every input *)

Section DriverOutcomes.
Context {F : Type} {fl : FloatOps F} {lib : Libs}.

#[local] Abbreviation failed e :=
  (mkLog ERROR "Failed to complete the feature engineering process: %s" [AExn e]).

#[local] Abbreviation completed :=
  (mkLog DEBUG "Feature engineering process completed successfully." []).

Lemma main_run w :
  main (F:=F) w =
    match main_try (F:=F) w with
    | (Ok a, w') => (Ok a, w')
    | (Raise e, w1) =>
        (Ok tt, add_stdout (add_log w1 (failed e)) ("Error: " +:+ exn_str e))
    end.
Proof. unfold main, try_except. by destruct (main_try w) as [[[]|e] w1]. Qed.

Lemma lookup_node_not_root (m : gmap (list string) node) p :
  is_root p = false -> lookup_node m p = m !! p.
Proof. unfold lookup_node. by intros ->. Qed.

Lemma load_params_ok path w v w1 :
  load_params path w = (Ok v, w1) ->
  v = PNone
  \/ exists text, lookup_node (fs w) (components path) = Some (File text)
                  /\ yaml_safe_load text = Ok v.
Proof.
  unfold load_params, try_except, load_params_try, bind.
  pose proof (read_file_world path w) as Hw.
  destruct (read_file path w) as [[text|e] w0] eqn:Er; simpl in Hw; subst w0.
  - apply read_file_ok in Er. unfold lift.
    destruct (yaml_safe_load text) as [v'|e] eqn:Ey.
    + run. intros H. inversion H; subst. eauto.
    + destruct (is_FileNotFoundError e); [|destruct (is_YAMLError e)];
        run; intros H; inversion H; auto.
  - destruct (is_FileNotFoundError e); [|destruct (is_YAMLError e)];
      run; intros H; inversion H; auto.
Qed.

Lemma load_data_ok path w (df : DataFrame F) w1 :
  load_data path w = (Ok df, w1) ->
  exists text df0,
    lookup_node (fs w) (components path) = Some (File text)
    /\ read_csv text = Ok df0 /\ df = fillna df0 "".
Proof.
  unfold load_data, try_except, load_data_try, pd_read_csv, bind.
  pose proof (read_file_world path w) as Hw.
  destruct (read_file path w) as [[text|e] w0] eqn:Er; simpl in Hw; subst w0.
  - apply read_file_ok in Er. unfold lift.
    destruct (read_csv text) as [df0|e] eqn:Ec.
    + run. intros H. inversion H; subst. eauto.
    + by destruct (is_ParserError e).
  - by destruct (is_ParserError e).
Qed.

(** The run of the [try] block of the driver: it stops with the file system
    as it was, or reaches the two writes with the tables of the stage. *)
Lemma main_try_cases w :
  (fs (snd (main_try (F:=F) w)) = fs w /\ exists e, fst (main_try (F:=F) w) = Raise e)
  \/ exists params w1 section mf (train : DataFrame F) w2 (test : DataFrame F) w3 dfs w4,
       load_params "params.yaml" w = (Ok params, w1)
       /\ py_getitem params "feature_engineering" = Ok section
       /\ py_getitem section "max_features" = Ok mf
       /\ load_data "./data/interim/train_processed.csv" w1 = (Ok train, w2)
       /\ load_data "./data/interim/test_processed.csv" w2 = (Ok test, w3)
       /\ apply_tfidf train test mf "text" "target" w3 = (Ok dfs, w4)
       /\ fs w1 = fs w /\ fs w2 = fs w /\ fs w4 = fs w /\ stdout w4 = stdout w
       /\ main_try (F:=F) w =
            (save_data (fst dfs) (path_join "./data/processed" "train_tfidf.csv") ;;;
             save_data (snd dfs) (path_join "./data/processed" "test_tfidf.csv") ;;;
             logger_debug "Feature engineering process completed successfully." []) w4.
Proof.
  unfold main_try, bind, lift.
  pose proof (keeps_fs_load_params "params.yaml" w) as K1.
  pose proof (keeps_stdout_load_params "params.yaml" w) as O1.
  destruct (load_params "params.yaml" w) as [[params|e] w1] eqn:E1; simpl in K1, O1;
    [|left; simpl; eauto].
  destruct (py_getitem params "feature_engineering") as [section|e] eqn:E2;
    [|left; simpl; eauto].
  destruct (py_getitem section "max_features") as [mf|e] eqn:E3;
    [|left; simpl; eauto].
  pose proof (keeps_fs_load_data (F:=F) "./data/interim/train_processed.csv" w1) as K2.
  pose proof (keeps_stdout_load_data (F:=F) "./data/interim/train_processed.csv" w1) as O2.
  destruct (load_data "./data/interim/train_processed.csv" w1) as [[train|e] w2] eqn:E4;
    simpl in K2, O2; [|left; simpl; split; [congruence|eauto]].
  pose proof (keeps_fs_load_data (F:=F) "./data/interim/test_processed.csv" w2) as K3.
  pose proof (keeps_stdout_load_data (F:=F) "./data/interim/test_processed.csv" w2) as O3.
  destruct (load_data "./data/interim/test_processed.csv" w2) as [[test|e] w3] eqn:E5;
    simpl in K3, O3; [|left; simpl; split; [congruence|eauto]].
  pose proof (keeps_fs_apply_tfidf train test mf "text" "target" w3) as K4.
  pose proof (keeps_stdout_apply_tfidf train test mf "text" "target" w3) as O4.
  destruct (apply_tfidf train test mf "text" "target" w3) as [[dfs|e] w4] eqn:E6;
    simpl in K4, O4; [|left; simpl; split; [congruence|eauto]].
  right. exists params, w1, section, mf, train, w2, test, w3, dfs, w4.
  split_and!; try done; congruence.
Qed.




(** X13. A successful run, end to end.  When the [try] block of the
    driver succeeds, the parameter file parsed to a mapping with the limit
    under [feature_engineering] / [max_features], both interim files were
    read as frames, and the stage produced two tables from these frames with
    their missing values filled.  Afterwards [data/processed] is a
    directory, the two output files hold exactly these tables as written by
    the CSV writer (the second write has not disturbed the first), and
    nothing has been printed. *)
Theorem main_success_outputs w w' :
  main_try (F:=F) w = (Ok tt, w') ->
  exists ptext params section mf ttext etext (train0 test0 tr te : DataFrame F),
    fs w !! ["params.yaml"] = Some (File ptext)
    /\ yaml_safe_load ptext = Ok params
    /\ py_getitem params "feature_engineering" = Ok section
    /\ py_getitem section "max_features" = Ok mf
    /\ fs w !! ["data"; "interim"; "train_processed.csv"] = Some (File ttext)
    /\ read_csv ttext = Ok train0
    /\ fs w !! ["data"; "interim"; "test_processed.csv"] = Some (File etext)
    /\ read_csv etext = Ok test0
    /\ apply_tfidf_steps (fillna train0 "") (fillna test0 "") mf "text" "target"
       = Ok (tr, te)
    /\ fs w' !! ["data"; "processed"] = Some Dir
    /\ fs w' !! ["data"; "processed"; "train_tfidf.csv"]
       = Some (File (csv_write (frame_lines tr)))
    /\ fs w' !! ["data"; "processed"; "test_tfidf.csv"]
       = Some (File (csv_write (frame_lines te)))
    /\ stdout w' = stdout w
    /\ main (F:=F) w = (Ok tt, w').
Proof.
  intros H.
  destruct (main_try_cases w)
    as [[_ [e He]]|(params & w1 & section & mf & train & w2 & test & w3 & dfs & w4
                    & E1 & E2 & E3 & E4 & E5 & E6 & K1 & K2 & K4 & O4 & Hrun)];
    [by rewrite H in He|].
  rewrite H in Hrun. symmetry in Hrun. unfold bind in Hrun.
  destruct (save_data (fst dfs) (path_join "./data/processed" "train_tfidf.csv") w4)
    as [[[]|e] w5] eqn:S1; [|done].
  destruct (save_data (snd dfs) (path_join "./data/processed" "test_tfidf.csv") w5)
    as [[[]|e] w6] eqn:S2; [|done].
  unfold logger_debug, emit in Hrun. inversion Hrun; subst w'; clear Hrun.
  destruct dfs as [tr te]; simpl in S1, S2.
  apply load_params_ok in E1 as [->|(ptext & Hp & Hy)]; [done|].
  apply load_data_ok in E4 as (ttext & train0 & Ht & Hrt & ->).
  apply load_data_ok in E5 as (etext & test0 & Hte & Hre & ->).
  apply apply_tfidf_ok in E6.
  rewrite K1 in Ht. rewrite K2 in Hte.
  pose proof (save_data_written _ _ _ _ S1) as F1.
  pose proof (save_data_written _ _ _ _ S2) as F2.
  destruct (save_data_ok _ _ _ _ S1) as (_ & _ & O5 & _).
  destruct (save_data_ok _ _ _ _ S2) as (D2 & P2 & O6 & _).
  specialize (D2 2 ltac:(vm_compute; lia)).
  exists ptext, params, section, mf, ttext, etext, train0, test0, tr, te.
  split_and!; try done.
  - apply P2; [done|]. exact F1.
  - cbn [stdout add_log]. congruence.
  - rewrite main_run, H. reflexivity.
Qed.


End DriverOutcomes.

(** ** The module level *)

Section ScriptOutcomes.
Context {F : Type} {fl : FloatOps F} {lib : Libs}.

#[local] Abbreviation log_file := ["logs"; "feature_engineering.log"].

Lemma module_init_frame w :
  log (snd (module_init w)) = log w /\ stdout (snd (module_init w)) = stdout w.
Proof.
  unfold module_init, bind.
  destruct (makedirs_cases log_dir w) as [[e ->]|(m & -> & _)]; [done|].
  unfold open_append; cbn [fs log stdout].
  destruct (String.eqb log_file_path ""); [done|].
  destruct (lookup_node m (removelast (components log_file_path))) as [[|c]|];
    try done.
  by destruct (lookup_node m (components log_file_path)) as [[|c]|].
Qed.

(** X15. When the logging set-up at the top of the module succeeds, [logs]
    is a directory and [logs/feature_engineering.log] a regular file: the
    file it was, with its content, when it existed, and an empty file
    otherwise.  Every other path is what it was, and nothing is logged or
    printed. *)
Theorem module_init_creates_log w w' :
  module_init w = (Ok tt, w') ->
  fs w' !! ["logs"] = Some Dir
  /\ fs w' !! log_file
     = Some (File (match fs w !! log_file with Some (File c) => c | _ => "" end))
  /\ (forall q, q <> ["logs"] -> q <> log_file -> fs w' !! q = fs w !! q)
  /\ fs w ⊆ fs w'
  /\ log w' = log w /\ stdout w' = stdout w.
Proof.
  intros H. pose proof (module_init_frame w) as [Hl Ho]. rewrite H in Hl, Ho.
  simpl in Hl, Ho. revert H. unfold module_init, bind.
  destruct (makedirs log_dir w) as [[[]|e] w0] eqn:Em; [|done].
  pose proof (makedirs_new _ _ _ Em) as Hnew.
  destruct (makedirs_cases log_dir w) as [[e He]|(m & Hm & Hsub & Hk)];
    [by rewrite He in Em|].
  rewrite Hm in Em. inversion Em; subst w0; clear Em Hm. cbn [fs] in Hnew.
  specialize (Hk 1 ltac:(vm_compute; lia)).
  change (lookup_node m (take 1 (components log_dir))) with (m !! ["logs"]) in Hk.
  assert (forall q, q <> ["logs"] -> m !! q = fs w !! q) as Hsame.
  { intros q Hq. destruct (m !! q) as [x|] eqn:Eq.
    - destruct (Hnew q x Eq) as [?|(_ & k & Hlen & ->)]; [done|].
      change (components log_dir) with ["logs"] in Hlen. simpl in Hlen.
      destruct Hq. by replace k with 1 by lia.
    - destruct (fs w !! q) as [x|] eqn:E0; [|done].
      pose proof (lookup_weaken _ _ _ _ E0 Hsub). congruence. }
  unfold open_append; cbn [fs log stdout].
  change (String.eqb log_file_path "") with false.
  change (components log_file_path) with log_file.
  change (lookup_node m (removelast log_file)) with (m !! ["logs"]).
  change (lookup_node m log_file) with (m !! log_file).
  rewrite Hk. rewrite <- (Hsame log_file) by done.
  destruct (m !! log_file) as [[|c]|] eqn:Ef; [done| |];
    intros H; inversion H; subst w'; clear H; cbn [fs].
  - split_and!; try done. intros q Hq _. by apply Hsame.
  - split_and!; try done.
    + by rewrite lookup_insert_ne.
    + by rewrite lookup_insert_eq.
    + intros q Hq Hq'. rewrite lookup_insert_ne by done. by apply Hsame.
    + etrans; [exact Hsub|]. by apply insert_subseteq.
Qed.

(** X16. When [logs] exists and is a regular file, running the file as a
    script fails at the logging set-up with the file-exists error of
    [makedirs]: the driver never runs, and nothing is created, logged or
    printed. *)
Theorem script_fails_when_logs_is_a_file w c :
  fs w !! ["logs"] = Some (File c) ->
  script (F:=F) w = (Raise (FileExistsError "logs"), w).
Proof.
  intros H. unfold script, module_init, bind, makedirs.
  change (String.eqb log_dir "") with false.
  change (components log_dir) with ["logs"].
  cbn [makedirs_from app]. change (lookup_node (fs w) ["logs"]) with (fs w !! ["logs"]).
  by rewrite H.
Qed.

(** X17. The only exceptions that leave the script are those of the
    logging set-up, raised before anything is logged or printed; once the
    set-up has succeeded the script ends normally, whatever the driver
    meets. *)
Theorem script_outcome w :
  (exists e w', module_init w = (Raise e, w')
                /\ script (F:=F) w = (Raise e, w')
                /\ log w' = log w /\ stdout w' = stdout w)
  \/ (exists w1 w', module_init w = (Ok tt, w1)
                    /\ main (F:=F) w1 = (Ok tt, w')
                    /\ script (F:=F) w = (Ok tt, w')).
Proof.
  pose proof (module_init_frame w) as [Hl Ho]. unfold script, bind.
  destruct (module_init w) as [[[]|e] w1] eqn:Ei; simpl in Hl, Ho.
  - right. destruct (main_never_raises (F:=F) w1) as [w' Hm]. eauto.
  - left. eauto 6.
Qed.

End ScriptOutcomes.

(** * The properties on the sample inputs *)

Section Witnesses.
Import Sample.
#[local] Existing Instance zfloat.
#[local] Existing Instance libs.

Lemma vocabulary_from_training_only_witness :
  exists X_train X_test v Xtr Xte vocabulary yte,
    df_getitem train "text" = Ok X_train
    /\ df_getitem test "text" = Ok X_test
    /\ fit_transform (new_vectorizer (PInt 3)) X_train = Ok (v, Xtr)
    /\ vocabulary_ v = Some vocabulary
    /\ (forall n, as_limit (PInt 3) = Ok (Some n) -> length vocabulary <= n)
    /\ (forall z, PInt 3 = PInt z -> (Z.of_nat (length vocabulary) <= z)%Z)
    /\ transform v X_test = Ok (v, Xte)
    /\ df_setitem (frame_of_matrix Xte vocabulary) "label" yte = Ok test_table
    /\ (forall test2 w2 tr2 te2 w2',
          apply_tfidf train test2 (PInt 3) "text" "target" w2 = (Ok (tr2, te2), w2') ->
          tr2 = train_table).
Proof.
  apply (vocabulary_from_training_only train test (PInt 3) "text" "target" world0
           train_table test_table
           (snd (apply_tfidf train test (PInt 3) "text" "target" world0))).
  vm_compute. reflexivity.
Defined.

Lemma labels_equal_targets_witness :
  exists ytr yte,
    df_getitem train "target" = Ok (V1 ytr)
    /\ df_getitem train_table "label" = Ok (V1 ytr)
    /\ df_getitem test "target" = Ok (V1 yte)
    /\ df_getitem test_table "label" = Ok (V1 yte).
Proof.
  apply (labels_equal_targets train test (PInt 3) "text" "target" world0
           train_table test_table
           (snd (apply_tfidf train test (PInt 3) "text" "target" world0))).
  vm_compute. reflexivity.
Defined.

Lemma empty_training_text_fails_witness :
  count_docs false [] (docs_of (V1 ([CStr ""; CStr ""] : list (cell Z)))) = Ok ([], [[]; []])
  /\ (exists e,
        apply_tfidf train_empty test (PInt 3) "text" "target" world0 =
          (Raise e,
           add_log world0 (mkLog ERROR "Error during TF-IDF transformation: %s" [AExn e])))
  /\ (forall ytr X_test yte limit,
        df_getitem train_empty "target" = Ok ytr -> df_getitem test "text" = Ok X_test ->
        df_getitem test "target" = Ok yte -> as_limit (PInt 3) = Ok limit ->
        fst (apply_tfidf train_empty test (PInt 3) "text" "target" world0) =
          Raise (ValueError "empty vocabulary; perhaps the documents only contain stop words")).
Proof.
  apply (empty_training_text_fails train_empty test (PInt 3) "text" "target" world0
           [CStr ""; CStr ""]).
  - reflexivity.
  - repeat constructor.
Defined.

Lemma label_term_column_overwritten_witness :
  exists ytr yte Xte,
    df_getitem train_label "target" = Ok (V1 ytr)
    /\ df_getitem test "target" = Ok (V1 yte)
    /\ fmap fst (columns train_label_table) = ["here"; "label"; "me"]
    /\ fmap fst (columns test_label_table) = ["here"; "label"; "me"]
    /\ columns train_label_table =
         (fun c => if bool_decide (fst c = "label") then ("label", ytr) else c)
           <$> columns (frame_of_matrix [[0; 1; 1]; [1; 1; 0]]%Z ["here"; "label"; "me"])
    /\ columns test_label_table =
         (fun c => if bool_decide (fst c = "label") then ("label", yte) else c)
           <$> columns (frame_of_matrix Xte ["here"; "label"; "me"])
    /\ df_getitem train_label_table "label" = Ok (V1 ytr)
    /\ df_getitem test_label_table "label" = Ok (V1 yte).
Proof.
  apply (label_term_column_overwritten train_label test (PInt 3) "text" "target" world0
           train_label_table test_label_table
           (snd (apply_tfidf train_label test (PInt 3) "text" "target" world0))
           (V1 [CStr "Label me"; CStr "no label here"])
           (mkVectorizer (PInt 3) (Some ["here"; "label"; "me"]) (Some [1; 1; 1]%Z))
           [[0; 1; 1]; [1; 1; 0]]%Z ["here"; "label"; "me"]).
  - vm_compute. reflexivity.
  - reflexivity.
  - vm_compute. reflexivity.
  - reflexivity.
  - set_solver.
Defined.




(** A complete run: parameters read, datasets loaded, tables written under
    [data/processed], seven debug records and nothing on the standard
    output. *)
Example main_completes_on_sample :
  let out := main (F:=Z) world_run in
  fst out = Ok tt
  /\ fmap fmt (log (snd out)) =
       ["Parameters retrived from %s"; "Data loaded and NaNs filled from %s";
        "Data loaded and NaNs filled from %s";
        "TF-IDF applied. Train shape: %s, Test shape: %s"; "Data saved to %s";
        "Data saved to %s"; "Feature engineering process completed successfully."]
  /\ stdout (snd out) = []
  /\ fs (snd out) !! ["data"; "processed"] = Some Dir
  /\ fs (snd out) !! ["data"; "processed"; "train_tfidf.csv"]
     = Some (File (plain_write [["cat"; "dog"; "fast"; "label"];
                                ["1"; "0"; "0"; "0"]; ["0"; "1"; "1"; "1"]]))
  /\ fs (snd out) !! ["data"; "processed"; "test_tfidf.csv"]
     = Some (File (plain_write [["cat"; "dog"; "fast"; "label"];
                                ["1"; "0"; "0"; "1"]])).
Proof. vm_compute. repeat split. Qed.


(** ** The loaders, the stage, the writer, the driver and the module level *)


Lemma apply_tfidf_tables_aligned_witness :
  feature_table train_table /\ feature_table test_table
  /\ fmap fst (columns train_table) = fmap fst (columns test_table)
  /\ (exists xtr ytr xte yte,
        df_getitem train "text" = Ok xtr /\ df_getitem train "target" = Ok (V1 ytr)
        /\ df_getitem test "text" = Ok xte /\ df_getitem test "target" = Ok (V1 yte)
        /\ index_len train_table = length (docs_of xtr)
        /\ index_len train_table = length ytr
        /\ index_len test_table = length (docs_of xte)
        /\ index_len test_table = length yte)
  /\ snd (apply_tfidf train test (PInt 3) "text" "target" world0)
     = add_log world0 (mkLog DEBUG "TF-IDF applied. Train shape: %s, Test shape: %s"
                             [shape train_table; shape test_table]).
Proof.
  apply (apply_tfidf_tables_aligned train test (PInt 3) "text" "target" world0
           train_table test_table
           (snd (apply_tfidf train test (PInt 3) "text" "target" world0))).
  vm_compute. reflexivity.
Defined.

Lemma apply_tfidf_non_text_fails_witness :
  exists e,
    apply_tfidf train_numbers test (PInt 3) "text" "target" world0 =
      (Raise e,
       add_log world0 (mkLog ERROR "Error during TF-IDF transformation: %s" [AExn e])).
Proof.
  apply (apply_tfidf_non_text_fails train_numbers test (PInt 3) "text" "target" world0
           [CStr "cat sat"; CInt 7] (CInt 7)).
  - left. reflexivity.
  - set_solver.
  - discriminate.
Defined.

Lemma apply_tfidf_rejects_limit_witness :
  exists e,
    apply_tfidf train test (PInt 0) "text" "target" world0 =
      (Raise e,
       add_log world0 (mkLog ERROR "Error during TF-IDF transformation: %s" [AExn e])).
Proof.
  apply (apply_tfidf_rejects_limit train test 0 "text" "target" world0).
  - set_solver.
  - set_solver.
  - set_solver.
  - set_solver.
  - lia.
Defined.

Lemma save_data_bare_file_name_witness :
  save_data train_table "out.csv" world0 =
    (Raise (FileNotFoundError ""),
     add_log world0 (mkLog ERROR "Unexpected error occurred while saving the data: %s"
                           [AExn (FileNotFoundError "")])).
Proof.
  apply (save_data_bare_file_name train_table "out.csv" world0). reflexivity.
Defined.




Lemma main_success_outputs_witness :
  let w' := snd (main_try (F:=Z) world_run) in
  exists ptext params section mf ttext etext (train0 test0 tr te : DataFrame Z),
    fs world_run !! ["params.yaml"] = Some (File ptext)
    /\ yaml_safe_load ptext = Ok params
    /\ py_getitem params "feature_engineering" = Ok section
    /\ py_getitem section "max_features" = Ok mf
    /\ fs world_run !! ["data"; "interim"; "train_processed.csv"] = Some (File ttext)
    /\ read_csv ttext = Ok train0
    /\ fs world_run !! ["data"; "interim"; "test_processed.csv"] = Some (File etext)
    /\ read_csv etext = Ok test0
    /\ apply_tfidf_steps (fillna train0 "") (fillna test0 "") mf "text" "target"
       = Ok (tr, te)
    /\ fs w' !! ["data"; "processed"] = Some Dir
    /\ fs w' !! ["data"; "processed"; "train_tfidf.csv"]
       = Some (File (csv_write (frame_lines tr)))
    /\ fs w' !! ["data"; "processed"; "test_tfidf.csv"]
       = Some (File (csv_write (frame_lines te)))
    /\ stdout w' = stdout world_run
    /\ main (F:=Z) world_run = (Ok tt, w').
Proof.
  apply (main_success_outputs world_run (snd (main_try (F:=Z) world_run))).
  vm_compute. reflexivity.
Defined.

Lemma module_init_creates_log_witness :
  let w' := snd (module_init world0) in
  fs w' !! ["logs"] = Some Dir
  /\ fs w' !! ["logs"; "feature_engineering.log"]
     = Some (File (match fs world0 !! ["logs"; "feature_engineering.log"] with
                   | Some (File c) => c
                   | _ => ""
                   end))
  /\ (forall q, q <> ["logs"] -> q <> ["logs"; "feature_engineering.log"] ->
                fs w' !! q = fs world0 !! q)
  /\ fs world0 ⊆ fs w'
  /\ log w' = log world0 /\ stdout w' = stdout world0.
Proof.
  apply (module_init_creates_log world0 (snd (module_init world0))).
  vm_compute. reflexivity.
Defined.

Lemma script_fails_when_logs_is_a_file_witness :
  script (F:=Z) world_logs_file = (Raise (FileExistsError "logs"), world_logs_file).
Proof.
  apply (script_fails_when_logs_is_a_file world_logs_file "notes"). reflexivity.
Defined.

End Witnesses.
